(** * Fastbotclaim: the claim-and-forward bot of [index.js]

    A shallow embedding of [index.js].  The program is asynchronous glue
    around external collaborators (the ledger SDK, the Horizon server, the
    messaging API, the file system).  Every [await] is sequential, so the
    program is modelled in a state-and-exception monad: the state is the
    external world together with the trace of observable events, and a
    thrown JavaScript error is the [Throw] result.  The collaborators are
    parameters of the development (record [Env]). *)

From Stdlib Require Import String Ascii List ZArith Bool Lia DecimalString.
From Stdlib Require DecimalZ DecimalPos.
Import ListNotations.
Open Scope string_scope.
Open Scope Z_scope.

Set Implicit Arguments.

(** ** JavaScript values the program inspects *)

(** A config field or an environment variable: either absent ([None], the
    JavaScript [undefined]) or a string.  A JavaScript string is modelled
    by [string], one character per code unit. *)
Definition truthy (v : option string) : bool :=
  match v with
  | None => false
  | Some s => negb (String.eqb s "")
  end.

(** Interpolation [`${v}`] of such a value in a template literal. *)
Definition template (v : option string) : string :=
  match v with
  | None => "undefined"
  | Some s => s
  end.

(** [s.substring(0, n)]. *)
Definition js_substring0 (n : nat) (s : string) : string := String.substring 0 n s.

(** *** Error objects and their optional response chain
    [e.response?.data?.extras?.result_codes]. *)
Record ResultCodes := mkResultCodes {
  rc_transaction : string;
  rc_operations : list string
}.

Record Extras := mkExtras { result_codes : option ResultCodes }.
Record Data := mkData { extras : option Extras }.
Record Response := mkResponse { status : Z; data : option Data }.

Record JsError := mkJsError {
  err_name : string;              (* "Error", "TypeError", ... *)
  message : string;
  response : option Response
}.

Definition new_Error (msg : string) : JsError := mkJsError "Error" msg None.

(** The engine's error for a property read on [undefined]. *)
Definition TypeError_substring : JsError :=
  mkJsError "TypeError" "Cannot read properties of undefined (reading 'substring')" None.

(** ** Data model *)

(** One entry of [accounts.json]: an object whose four fields are strings
    when present. *)
Record AccountConfig := mkAccount {
  name : option string;
  mainMnemonic : option string;
  sponsorMnemonic : option string;
  receiverAddress : option string
}.

Record Wallet := mkWallet { w_publicKey : string; w_secretKey : string }.

Record Keypair := mkKeypair { publicKey : string; secret : string }.

Record ClaimableBalanceRecord := mkRecord { cb_id : string; cb_amount : string }.

Record AccountResponse := mkAccountResponse { accountId : string; sequence : string }.

Inductive Asset := Asset_native | Asset_issued (code issuer : string).

Inductive Operation :=
| ClaimClaimableBalance (balanceId : string)
| Payment (destination : string) (asset : Asset) (amount : string).

(** [TransactionBuilder]: the source account, the options object and what
    the chained calls add. *)
Record TransactionBuilder := mkBuilder {
  tb_source : AccountResponse;
  tb_fee : string;
  tb_networkPassphrase : string;
  tb_operations : list Operation;
  tb_timeout : option Z
}.

Record Transaction := mkTransaction {
  tx_source : AccountResponse;
  tx_fee : string;
  tx_networkPassphrase : string;
  tx_operations : list Operation;
  tx_timeout : Z;
  tx_signatures : list string      (* public keys of the signers, in order *)
}.

Record FeeBumpTransaction := mkFeeBump {
  fb_feeSource : string;
  fb_fee : string;                 (* the fee that the envelope declares *)
  fb_inner : Transaction;
  fb_networkPassphrase : string;
  fb_signatures : list string
}.

Record SubmitResult := mkSubmitResult { hash : string }.

Record TelegramBody := mkTelegramBody {
  chat_id : string;
  text : string;
  parse_mode : string
}.

(** ** Numbers

    [fetchBaseFee] resolves to an integer-valued Number.  Such a Number is
    modelled by the integer it denotes.  A product of two of them is the
    exact product rounded to the 53-bit significand of a double (round to
    nearest, ties to even). *)
Definition round53 (z : Z) : Z :=
  let a := Z.abs z in
  if a <=? 2 ^ 53 then z
  else
    let e := Z.log2 a - 52 in
    let q := a / 2 ^ e in
    let r := a mod 2 ^ e in
    let half := 2 ^ (e - 1) in
    let q' := if r <? half then q
              else if half <? r then q + 1
              else if Z.even q then q else q + 1 in
    Z.sgn z * (q' * 2 ^ e).

Definition js_mul (a b : Z) : Z := round53 (a * b).

(** [parseInt(n)] of an integer-valued Number below 1e21: [String(n)] is the
    decimal numeral of [n], which [parseInt] reads back. *)
Definition parseInt (n : Z) : Z := n.

(** [n.toString()] of an integer-valued Number in the exactly representable
    range: its decimal numeral. *)
Definition Number_toString (n : Z) : string := NilZero.string_of_int (Z.to_int n).

(** What line 99 computes from the base fee.  The three steps are those of
    the engine for integer-valued Numbers [baseFee] with
    [|baseFee * 120| <= 2^53]; beyond that range the product is still the
    engine's ([js_mul] rounds), but the engine prints a shortest round-trip
    numeral, which [Number_toString] does not describe. *)
Definition feeBumpFee (baseFee : Z) : string :=
  Number_toString (js_mul (parseInt baseFee) 120).

(** The integer that a decimal numeral denotes. *)
Definition decimal_value (s : string) : option Z :=
  option_map Z.of_int (NilZero.int_of_string s).

(** The fee that the SDK's [TransactionBuilder.buildFeeBumpTransaction]
    declares in the envelope.  Its second argument is a fee per operation:
    the envelope's fee is that amount times the number of operations of the
    inner transaction plus one (the fee bump itself), computed on
    arbitrary-precision integers and stored as a decimal numeral.  The
    argument that this program passes is always a numeral; the other
    branch is not reached. *)
Definition declaredFee (baseFee : string) (operations : nat) : string :=
  match decimal_value baseFee with
  | Some base => Number_toString (base * (Z.of_nat operations + 1))
  | None => "NaN"
  end.

(** ** Observable events *)

Inductive LogArg :=
| AStr (s : string)
| ACodes (rc : ResultCodes)
| AErr (e : JsError).

Inductive Event :=
| ConsoleLog (args : list LogArg)
| ConsoleError (args : list LogArg)
| FsReadFile (path : string)
| NetClaimableBalances (claimant : string) (limit : Z)
| NetLoadAccount (pk : string)
| NetFetchBaseFee
| NetSubmit (tx : FeeBumpTransaction)
| NetPost (url : string) (body : TelegramBody)
| CryptoDerive (path : string)             (* seed and key derivation ran *)
| CryptoSign (signer : string).            (* a secret key signed a transaction *)

Definition is_network (ev : Event) : bool :=
  match ev with
  | NetClaimableBalances _ _ | NetLoadAccount _ | NetFetchBaseFee
  | NetSubmit _ | NetPost _ _ => true
  | _ => false
  end.

Definition is_crypto (ev : Event) : bool :=
  match ev with
  | CryptoDerive _ | CryptoSign _ => true
  | _ => false
  end.

Definition is_sign (ev : Event) : bool :=
  match ev with
  | CryptoSign _ => true
  | _ => false
  end.

Definition is_submit (ev : Event) : bool :=
  match ev with
  | NetSubmit _ => true
  | _ => false
  end.

(** The event is a console line whose first argument is the text [s]. *)
Definition logs_text (s : string) (ev : Event) : bool :=
  match ev with
  | ConsoleLog (AStr t :: _) | ConsoleError (AStr t :: _) => String.eqb s t
  | _ => false
  end.

Definition is_query (ev : Event) : bool :=
  match ev with
  | NetClaimableBalances _ _ => true
  | _ => false
  end.

Definition is_post (ev : Event) : bool :=
  match ev with
  | NetPost _ _ => true
  | _ => false
  end.

(** How many of the events satisfy [p]. *)
Definition count (p : Event -> bool) (evs : list Event) : nat :=
  length (filter p evs).

(** [xs] occurs in [ys], in order, possibly with other elements between. *)
Inductive Subseq {A : Type} : list A -> list A -> Prop :=
| subseq_nil ys : Subseq [] ys
| subseq_keep x xs ys : Subseq xs ys -> Subseq (x :: xs) (x :: ys)
| subseq_skip y xs ys : Subseq xs ys -> Subseq xs (y :: ys).

Definition is_log (ev : Event) : bool :=
  match ev with
  | ConsoleLog _ | ConsoleError _ => true
  | _ => false
  end.

(** ** The monad *)

Inductive Result (A : Type) :=
| Return (a : A)
| Throw (e : JsError).
Arguments Return {A} a.
Arguments Throw {A} e.

Section Program.

Variable World : Type.

Record State := mkState { world : World; trace : list Event }.

Definition M (A : Type) : Type := State -> Result A * State.

Definition ret {A} (a : A) : M A := fun st => (Return a, st).

Definition throw {A} (e : JsError) : M A := fun st => (Throw e, st).

Definition bind {A B} (c : M A) (k : A -> M B) : M B :=
  fun st =>
    match c st with
    | (Return a, st') => k a st'
    | (Throw e, st') => (Throw e, st')
    end.

(** [try { c } catch (e) { h e }]. *)
Definition try_catch {A} (c : M A) (h : JsError -> M A) : M A :=
  fun st =>
    match c st with
    | (Return a, st') => (Return a, st')
    | (Throw e, st') => h e st'
    end.

Definition emit (ev : Event) : M unit :=
  fun st => (Return tt, mkState (world st) (trace st ++ [ev])).

(** A call to a collaborator: the event is recorded, the world answers. *)
Definition call {A} (ev : Event) (f : World -> Result A * World) : M A :=
  fun st =>
    let (r, w') := f (world st) in
    (r, mkState w' (trace st ++ [ev])).

(** The state [st] after the events [evs]. *)
Definition after (st : State) (evs : list Event) : State :=
  mkState (world st) (trace st ++ evs).

(** [c] can return [a]. *)
Definition yields {A} (c : M A) (a : A) : Prop :=
  exists st st', c st = (Return a, st').

(** Whatever [c] does, it only appends events that satisfy [P]. *)
Definition appends {A} (P : Event -> Prop) (c : M A) : Prop :=
  forall st r st', c st = (r, st') ->
    exists evs, trace st' = (trace st ++ evs)%list /\ Forall P evs.

End Program.

Arguments ret {World A} a.
Arguments throw {World A} e.
Arguments emit {World} ev.

Notation "x <- c ;; k" := (bind c (fun x => k))
  (at level 61, c at next level, right associativity).
Notation "c ;;; k" := (bind c (fun _ => k))
  (at level 61, right associativity).

(** ** External collaborators

    None of these is code of the repository: the mnemonic and key libraries,
    the ledger SDK's validation of operations and envelopes, the Horizon
    server, the HTTP client, the process environment and the file system.
    The pure library functions are pure here; every network or file call
    reads and advances the world, and may return or throw. *)
Record Env (World : Type) := mkEnv {
  (* bip39, ed25519-hd-key, Keypair *)
  validateMnemonic : string -> bool;
  mnemonicToSeed : string -> string;
  toString_hex : string -> string;
  derivePath : string -> string -> string;
  fromRawEd25519Seed : string -> Keypair;
  fromSecret : string -> Keypair;
  (* argument validation done by the SDK when an operation or a fee-bump
     envelope is constructed: [Some e] when the constructor throws [e] *)
  check_claimClaimableBalance : string -> option JsError;
  check_payment : string -> Asset -> string -> option JsError;
  check_feeBump : string -> string -> Transaction -> string -> option JsError;
  (* Horizon server *)
  horizon_claimableBalances :
    string -> Z -> World -> Result (list ClaimableBalanceRecord) * World;
  horizon_loadAccount : string -> World -> Result AccountResponse * World;
  horizon_fetchBaseFee : World -> Result Z * World;
  horizon_submitTransaction :
    FeeBumpTransaction -> World -> Result SubmitResult * World;
  (* axios, process.env, fs + JSON.parse *)
  axios_post : string -> TelegramBody -> World -> Result unit * World;
  TELEGRAM_BOT_TOKEN : option string;
  TELEGRAM_CHAT_ID : option string;
  readAccounts : World -> Result (list AccountConfig) * World
}.

Section Bot.

Variable World : Type.
Variable env : Env World.

Local Abbreviation M := (M World).

Definition lift {A} (r : Result A) : M A := fun st => (r, st).

Definition console_log (args : list LogArg) : M unit := emit (ConsoleLog args).
Definition console_error (args : list LogArg) : M unit := emit (ConsoleError args).

Definition nl : string := String (ascii_of_nat 10) "".

(** The value of a field already known to be a string. *)
Definition the (v : option string) : string :=
  match v with
  | Some s => s
  | None => ""
  end.

(** *** [sendTelegramMessage] (lines 13-28) *)
Definition sendTelegramMessage (msg : string) : M unit :=
  let botToken := TELEGRAM_BOT_TOKEN env in
  let chatId := TELEGRAM_CHAT_ID env in
  if negb (truthy botToken) || negb (truthy chatId) then ret tt
  else
    let url := "https://api.telegram.org/bot" ++ the botToken ++ "/sendMessage" in
    let body := mkTelegramBody (the chatId) msg "Markdown" in
    try_catch
      (call (NetPost url body) (axios_post env url body))
      (fun err =>
         console_error [AStr "⚠️ Gagal kirim ke Telegram:"; AStr (message err)]).

(** *** [getPiWalletAddressFromSeed] (lines 35-42) *)
Definition mnemonicError (mnemonic : string) : JsError :=
  new_Error ("Mnemonic tidak valid: " ++ js_substring0 10 mnemonic ++ "...").

Definition derivationPath : string := "m/44'/314159'/0'".

Definition getPiWalletAddressFromSeed (mnemonic : string) : M Wallet :=
  if negb (validateMnemonic env mnemonic) then throw (mnemonicError mnemonic)
  else
    let seed := mnemonicToSeed env mnemonic in
    emit (CryptoDerive derivationPath) ;;;
    let key := derivePath env derivationPath (toString_hex env seed) in
    let keypair := fromRawEd25519Seed env key in
    ret (mkWallet (publicKey keypair) (secret keypair)).

(** The keypair that lines 63-66 rebuild from the wallet of [mnemonic]. *)
Definition keypairOf (mnemonic : string) : Keypair :=
  let seed := mnemonicToSeed env mnemonic in
  let key := derivePath env derivationPath (toString_hex env seed) in
  fromSecret env (secret (fromRawEd25519Seed env key)).

(** *** The SDK's builders, as the program drives them *)
Definition Operation_claimClaimableBalance (balanceId : string) : Result Operation :=
  match check_claimClaimableBalance env balanceId with
  | Some e => Throw e
  | None => Return (ClaimClaimableBalance balanceId)
  end.

Definition Operation_payment (destination : string) (asset : Asset) (amount : string)
  : Result Operation :=
  match check_payment env destination asset amount with
  | Some e => Throw e
  | None => Return (Payment destination asset amount)
  end.

Definition new_TransactionBuilder (source : AccountResponse) (fee passphrase : string)
  : TransactionBuilder :=
  mkBuilder source fee passphrase [] None.

Definition addOperation (op : Operation) (tb : TransactionBuilder) : TransactionBuilder :=
  mkBuilder (tb_source tb) (tb_fee tb) (tb_networkPassphrase tb)
            (tb_operations tb ++ [op]) (tb_timeout tb).

Definition setTimeout (seconds : Z) (tb : TransactionBuilder) : TransactionBuilder :=
  mkBuilder (tb_source tb) (tb_fee tb) (tb_networkPassphrase tb)
            (tb_operations tb) (Some seconds).

Definition build (tb : TransactionBuilder) : Result Transaction :=
  match tb_timeout tb with
  | None => Throw (new_Error "TimeBounds has to be set or you must call setTimeout(TimeoutInfinite).")
  | Some t =>
      Return (mkTransaction (tb_source tb) (tb_fee tb) (tb_networkPassphrase tb)
                            (tb_operations tb) t [])
  end.

Definition sign (tx : Transaction) (kp : Keypair) : M Transaction :=
  emit (CryptoSign (publicKey kp)) ;;;
  ret (mkTransaction (tx_source tx) (tx_fee tx) (tx_networkPassphrase tx)
                     (tx_operations tx) (tx_timeout tx)
                     (tx_signatures tx ++ [publicKey kp])).

(** [TransactionBuilder.buildFeeBumpTransaction(feeSource, baseFee, innerTx,
    networkPassphrase)].  The SDK first checks its arguments ([check_feeBump]);
    the envelope it returns declares [declaredFee]. *)
Definition buildFeeBumpTransaction (feeSource baseFee : string) (inner : Transaction)
           (passphrase : string) : Result FeeBumpTransaction :=
  match check_feeBump env feeSource baseFee inner passphrase with
  | Some e => Throw e
  | None =>
      Return (mkFeeBump feeSource
                        (declaredFee baseFee (length (tx_operations inner)))
                        inner passphrase [])
  end.

Definition signFeeBump (tx : FeeBumpTransaction) (kp : Keypair) : M FeeBumpTransaction :=
  emit (CryptoSign (publicKey kp)) ;;;
  ret (mkFeeBump (fb_feeSource tx) (fb_fee tx) (fb_inner tx) (fb_networkPassphrase tx)
                 (fb_signatures tx ++ [publicKey kp])).

(** *** [processAccount] (lines 49-121) *)
Definition networkPassphrase : string := "Pi Network".

(** Line 50: [account.name || account.mainMnemonic.substring(0, 15) + '...']. *)
Definition accountIdentifier (account : AccountConfig) : Result string :=
  if truthy (name account) then Return (the (name account))
  else
    match mainMnemonic account with
    | Some m => Return (js_substring0 15 m ++ "...")
    | None => Throw TypeError_substring
    end.

Fixpoint forEach {A} (xs : list A) (body : A -> M unit) : M unit :=
  match xs with
  | [] => ret tt
  | x :: xs' => body x ;;; forEach xs' body
  end.

Definition msg_processing (id : string) : string :=
  nl ++ "============== Memproses: " ++ id ++ " ==============".
Definition msg_incomplete (id : string) : string :=
  "❌ Error: Konfigurasi tidak lengkap untuk akun " ++ id.
Definition msg_none (id : string) : string :=
  "📭 Tidak ada claimable balance untuk " ++ id ++ ".".
Definition msg_found (id amount : string) : string :=
  "💰 Ditemukan Claimable Balance untuk " ++ id ++ ": " ++ amount ++ " Pi".
Definition msg_sending (id : string) : string :=
  "🚀 Mengirim transaksi untuk " ++ id ++ "...".
Definition msg_success (h : string) : string := "✅ Sukses! Hash: " ++ h.
Definition msg_telegram (account : AccountConfig) (amount h : string) : string :=
  "✅ **Klaim & Kirim Sukses (" ++ template (name account) ++ ")**" ++ nl
  ++ "*Jumlah:* " ++ amount ++ " Pi" ++ nl
  ++ "*Tx Hash:* [" ++ js_substring0 15 h
  ++ "...](https://blockexplorer.minepi.com/mainnet/transactions/" ++ h ++ ")".
Definition msg_rate_limited (id : string) : string :=
  "🔴 RATE LIMITED saat memproses " ++ id
  ++ ". Server memblokir sementara karena terlalu banyak permintaan.".
Definition msg_error (id : string) : string :=
  "❌ Error saat memproses " ++ id ++ ":".

(** The error line of the [catch] block for an error without result codes. *)
Definition line_error (id : string) (e : JsError) : Event :=
  ConsoleError [AStr (msg_error id); AStr (message e)].

(** The body of the [for] loop, lines 80-111. *)
Definition processBalance (id : string) (account : AccountConfig)
           (receiver : string) (mainKeypair sponsorKeypair : Keypair)
           (cb : ClaimableBalanceRecord) : M unit :=
  console_log [AStr (msg_found id (cb_amount cb))] ;;;
  mainAccount <- call (NetLoadAccount (publicKey mainKeypair))
                      (horizon_loadAccount env (publicKey mainKeypair)) ;;
  let tb := new_TransactionBuilder mainAccount "0" networkPassphrase in
  op1 <- lift (Operation_claimClaimableBalance (cb_id cb)) ;;
  let tb := addOperation op1 tb in
  op2 <- lift (Operation_payment receiver Asset_native (cb_amount cb)) ;;
  let tb := addOperation op2 tb in
  innerTransaction <- lift (build (setTimeout 60 tb)) ;;
  innerTransaction <- sign innerTransaction mainKeypair ;;
  baseFee <- call NetFetchBaseFee (horizon_fetchBaseFee env) ;;
  feeBumpTransaction <- lift (buildFeeBumpTransaction (publicKey sponsorKeypair)
                                (feeBumpFee baseFee) innerTransaction
                                networkPassphrase) ;;
  feeBumpTransaction <- signFeeBump feeBumpTransaction sponsorKeypair ;;
  console_log [AStr (msg_sending id)] ;;;
  result <- call (NetSubmit feeBumpTransaction)
                 (horizon_submitTransaction env feeBumpTransaction) ;;
  console_log [AStr (msg_success (hash result))] ;;;
  sendTelegramMessage (msg_telegram account (cb_amount cb) (hash result)).

(** The [catch] block, lines 113-120. *)
Definition is_rate_limited (e : JsError) : bool :=
  match response e with
  | Some r => status r =? 429
  | None => false
  end.

(** [e.response?.data?.extras?.result_codes]. *)
Definition result_codes_of (e : JsError) : option ResultCodes :=
  match response e with
  | None => None
  | Some r =>
      match data r with
      | None => None
      | Some d =>
          match extras d with
          | None => None
          | Some x => result_codes x
          end
      end
  end.

Definition errorMessage (e : JsError) : LogArg :=
  match result_codes_of e with
  | Some codes => ACodes codes
  | None => AStr (message e)
  end.

Definition handleError (id : string) (e : JsError) : M unit :=
  if is_rate_limited e then console_error [AStr (msg_rate_limited id)]
  else console_error [AStr (msg_error id); errorMessage e].

(** The [try] block, lines 63-112. *)
Definition tryBlock (id : string) (account : AccountConfig) : M unit :=
  mainWallet <- getPiWalletAddressFromSeed (the (mainMnemonic account)) ;;
  sponsorWallet <- getPiWalletAddressFromSeed (the (sponsorMnemonic account)) ;;
  let mainKeypair := fromSecret env (w_secretKey mainWallet) in
  let sponsorKeypair := fromSecret env (w_secretKey sponsorWallet) in
  claimables <- call (NetClaimableBalances (publicKey mainKeypair) 10)
                     (horizon_claimableBalances env (publicKey mainKeypair) 10) ;;
  if (length claimables =? 0)%nat then console_log [AStr (msg_none id)]
  else
    forEach claimables
            (processBalance id account (the (receiverAddress account))
                            mainKeypair sponsorKeypair).

Definition incomplete (account : AccountConfig) : bool :=
  negb (truthy (mainMnemonic account))
  || negb (truthy (sponsorMnemonic account))
  || negb (truthy (receiverAddress account)).

Definition processAccount (account : AccountConfig) : M unit :=
  id <- lift (accountIdentifier account) ;;
  console_log [AStr (msg_processing id)] ;;;
  if incomplete account then console_error [AStr (msg_incomplete id)]
  else try_catch (tryBlock id account) (handleError id).

(** *** [runAllBotsContinuously] (lines 126-153)

    [while (true)] never exits normally; [cycles n] is its first [n]
    iterations, so a normal return of [cycles n] means that the loop is
    still running after [n] sweeps. *)
Definition msg_cycle_start : string :=
  nl ++ "---🔄 Memulai siklus pengecekan baru 🔄---".

Definition cycle (accounts : list AccountConfig) : M unit :=
  console_log [AStr msg_cycle_start] ;;;
  forEach accounts processAccount ;;;
  console_log [AStr "---✅ Siklus selesai, langsung memulai lagi ---"].

Fixpoint cycles (n : nat) (accounts : list AccountConfig) : M unit :=
  match n with
  | O => ret tt
  | S n' => cycle accounts ;;; cycles n' accounts
  end.

Definition loadAccounts : M (option (list AccountConfig)) :=
  try_catch
    (accounts <- call (FsReadFile "accounts.json") (readAccounts env) ;;
     if (length accounts =? 0)%nat then
       console_error [AStr "❌ File 'accounts.json' kosong atau tidak ditemukan. Bot berhenti."] ;;;
       ret None
     else
       console_log [AStr ("🤖 Konfigurasi untuk "
                          ++ Number_toString (Z.of_nat (length accounts))
                          ++ " akun berhasil dimuat. Memulai loop super cepat.")] ;;;
       ret (Some accounts))
    (fun error =>
       console_error [AStr "🔥 Gagal membaca atau mem-parsing 'accounts.json':";
                      AStr (message error)] ;;;
       ret None).

Definition runAllBotsContinuously (n : nat) : M unit :=
  console_log [AStr "Membaca konfigurasi akun dari 'accounts.json'..."] ;;;
  loaded <- loadAccounts ;;
  match loaded with
  | None => ret tt
  | Some accounts => cycles n accounts
  end.

(** Lines 156-159. *)
Definition msg_fatal : string := "FATAL ERROR PADA LOOP UTAMA:".

Definition main (n : nat) : M unit :=
  console_log [AStr "🚀 Memulai bot klaim Pi..."] ;;;
  try_catch (runAllBotsContinuously n)
            (fun err => console_error [AStr msg_fatal; AErr err]).

End Bot.

Arguments lift {World A} r.
Arguments console_log {World} args.
Arguments console_error {World} args.

(** ** What a run can emit

    The events that the loop body and [processAccount] can append to the
    trace, with the values they carry. *)
Section Emitted.

Variable World : Type.
Variable env : Env World.

(** The fee-bump envelope built for the record [cb] from the loaded account
    and the fetched base fee [b], with both signatures. *)
Definition envelope (receiver : string) (mainKeypair sponsorKeypair : Keypair)
           (cb : ClaimableBalanceRecord) (mainAccount : AccountResponse) (b : Z)
  : FeeBumpTransaction :=
  mkFeeBump (publicKey sponsorKeypair) (declaredFee (feeBumpFee b) 2)
    (mkTransaction mainAccount "0" networkPassphrase
       [ClaimClaimableBalance (cb_id cb); Payment receiver Asset_native (cb_amount cb)]
       60 [publicKey mainKeypair])
    networkPassphrase [publicKey sponsorKeypair].

Inductive BalanceEvent (id : string) (account : AccountConfig) (receiver : string)
          (mainKeypair sponsorKeypair : Keypair) (cb : ClaimableBalanceRecord)
  : Event -> Prop :=
| be_found :
    BalanceEvent id account receiver mainKeypair sponsorKeypair cb
      (ConsoleLog [AStr (msg_found id (cb_amount cb))])
| be_load :
    BalanceEvent id account receiver mainKeypair sponsorKeypair cb
      (NetLoadAccount (publicKey mainKeypair))
| be_sign_inner :
    BalanceEvent id account receiver mainKeypair sponsorKeypair cb
      (CryptoSign (publicKey mainKeypair))
| be_fee :
    BalanceEvent id account receiver mainKeypair sponsorKeypair cb NetFetchBaseFee
| be_sign_bump :
    BalanceEvent id account receiver mainKeypair sponsorKeypair cb
      (CryptoSign (publicKey sponsorKeypair))
| be_sending :
    BalanceEvent id account receiver mainKeypair sponsorKeypair cb
      (ConsoleLog [AStr (msg_sending id)])
| be_submit mainAccount b w w' :
    horizon_fetchBaseFee env w = (Return b, w') ->
    BalanceEvent id account receiver mainKeypair sponsorKeypair cb
      (NetSubmit (envelope receiver mainKeypair sponsorKeypair cb mainAccount b))
| be_success h :
    BalanceEvent id account receiver mainKeypair sponsorKeypair cb
      (ConsoleLog [AStr (msg_success h)])
| be_post url chat h :
    BalanceEvent id account receiver mainKeypair sponsorKeypair cb
      (NetPost url (mkTelegramBody chat (msg_telegram account (cb_amount cb) h) "Markdown"))
| be_post_failed msg :
    BalanceEvent id account receiver mainKeypair sponsorKeypair cb
      (ConsoleError [AStr "⚠️ Gagal kirim ke Telegram:"; AStr msg]).

Inductive AccountEvent (id : string) (account : AccountConfig) : Event -> Prop :=
| ae_processing : AccountEvent id account (ConsoleLog [AStr (msg_processing id)])
| ae_incomplete : AccountEvent id account (ConsoleError [AStr (msg_incomplete id)])
| ae_derive : AccountEvent id account (CryptoDerive derivationPath)
| ae_query pk : AccountEvent id account (NetClaimableBalances pk 10)
| ae_none : AccountEvent id account (ConsoleLog [AStr (msg_none id)])
| ae_balance mainKeypair sponsorKeypair cb ev :
    BalanceEvent id account (the (receiverAddress account)) mainKeypair sponsorKeypair cb ev ->
    AccountEvent id account ev
| ae_rate_limited : AccountEvent id account (ConsoleError [AStr (msg_rate_limited id)])
| ae_error detail : AccountEvent id account (ConsoleError [AStr (msg_error id); detail]).

(** The request that [sendTelegramMessage] posts. *)
Definition telegramUrl : string :=
  "https://api.telegram.org/bot" ++ the (TELEGRAM_BOT_TOKEN env) ++ "/sendMessage".

Definition telegramBody (msg : string) : TelegramBody :=
  mkTelegramBody (the (TELEGRAM_CHAT_ID env)) msg "Markdown".

Definition line_post_failed (m : string) : Event :=
  ConsoleError [AStr "⚠️ Gagal kirim ke Telegram:"; AStr m].

(** The events of one record, from the first line to the submission. *)
Definition submissionEvents (id : string) (receiver : string)
           (mainKeypair sponsorKeypair : Keypair) (cb : ClaimableBalanceRecord)
           (mainAccount : AccountResponse) (b : Z) : list Event :=
  [ConsoleLog [AStr (msg_found id (cb_amount cb))];
   NetLoadAccount (publicKey mainKeypair);
   CryptoSign (publicKey mainKeypair);
   NetFetchBaseFee;
   CryptoSign (publicKey sponsorKeypair);
   ConsoleLog [AStr (msg_sending id)];
   NetSubmit (envelope receiver mainKeypair sponsorKeypair cb mainAccount b)].

(** The longest run of events that one record can produce: submission,
    success line, notification and the line of a failed notification. *)
Definition recordEvents (id : string) (account : AccountConfig) (receiver : string)
           (mainKeypair sponsorKeypair : Keypair) (cb : ClaimableBalanceRecord)
           (mainAccount : AccountResponse) (b : Z) (h m : string) : list Event :=
  (submissionEvents id receiver mainKeypair sponsorKeypair cb mainAccount b
   ++ [ConsoleLog [AStr (msg_success h)];
       NetPost telegramUrl (telegramBody (msg_telegram account (cb_amount cb) h));
       line_post_failed m])%list.

End Emitted.

(** The log lines of one account, as templates over the identifier. *)
Inductive LogLine (id : string) : Event -> Prop :=
| ll_processing : LogLine id (ConsoleLog [AStr (msg_processing id)])
| ll_incomplete : LogLine id (ConsoleError [AStr (msg_incomplete id)])
| ll_none : LogLine id (ConsoleLog [AStr (msg_none id)])
| ll_found amount : LogLine id (ConsoleLog [AStr (msg_found id amount)])
| ll_sending : LogLine id (ConsoleLog [AStr (msg_sending id)])
| ll_success h : LogLine id (ConsoleLog [AStr (msg_success h)])
| ll_post_failed msg : LogLine id (ConsoleError [AStr "⚠️ Gagal kirim ke Telegram:"; AStr msg])
| ll_rate_limited : LogLine id (ConsoleError [AStr (msg_rate_limited id)])
| ll_error detail : LogLine id (ConsoleError [AStr (msg_error id); detail]).

(** The events of a run are those of the account and use its two keys. *)
Definition uses_keys (mainKeypair sponsorKeypair : Keypair) (ev : Event) : Prop :=
  match ev with
  | NetClaimableBalances pk limit => pk = publicKey mainKeypair /\ limit = 10
  | NetLoadAccount pk => pk = publicKey mainKeypair
  | CryptoSign pk => pk = publicKey mainKeypair \/ pk = publicKey sponsorKeypair
  | NetSubmit tx =>
      fb_feeSource tx = publicKey sponsorKeypair
      /\ fb_signatures tx = [publicKey sponsorKeypair]%list
      /\ tx_signatures (fb_inner tx) = [publicKey mainKeypair]%list
      /\ tx_networkPassphrase (fb_inner tx) = "Pi Network"%string
      /\ fb_networkPassphrase tx = "Pi Network"%string
  | _ => True
  end.

(** The header line that a run of [processAccount] starts with. *)
Definition headerOf (account : AccountConfig) : Event :=
  match accountIdentifier account with
  | Return id => ConsoleLog [AStr (msg_processing id)]
  | Throw _ => ConsoleLog []
  end.

(** The line that ends a sweep (line 151). *)
Definition msg_cycle_end : string := "---✅ Siklus selesai, langsung memulai lagi ---".

(** ** A scripted environment for concrete runs

    The world is the number of submissions made so far.  A mnemonic is
    accepted when it starts with "ok"; the key derived from a seed is the
    seed itself.  The ledger reports the records [balances] for every
    claimant, the base fee is 100, and [submit] decides what happens to
    the k-th submission. *)
Definition demoEnv (balances : list ClaimableBalanceRecord)
           (submit : nat -> Result SubmitResult) (stored : list AccountConfig)
  : Env nat :=
  {| validateMnemonic := fun m => String.prefix "ok" m;
     mnemonicToSeed := fun m => m;
     toString_hex := fun s => s;
     derivePath := fun _ seed => seed;
     fromRawEd25519Seed := fun key => mkKeypair ("G-" ++ key) ("S-" ++ key);
     fromSecret := fun s => mkKeypair ("G-" ++ String.substring 2 (String.length s) s) s;
     check_claimClaimableBalance := fun _ => None;
     check_payment := fun _ _ _ => None;
     check_feeBump := fun _ _ _ _ => None;
     horizon_claimableBalances := fun _ _ w => (Return balances, w);
     horizon_loadAccount := fun pk w => (Return (mkAccountResponse pk "7"), w);
     horizon_fetchBaseFee := fun w => (Return 100, w);
     horizon_submitTransaction := fun _ w => (submit w, S w);
     axios_post := fun _ _ w => (Return tt, w);
     TELEGRAM_BOT_TOKEN := None;
     TELEGRAM_CHAT_ID := None;
     readAccounts := fun w => (Return stored, w) |}.

Definition bal1 : ClaimableBalanceRecord := mkRecord "BAL1" "10.5".
Definition bal2 : ClaimableBalanceRecord := mkRecord "BAL2" "3".

Definition rejected429 : JsError :=
  mkJsError "Error" "Request failed with status code 429" (Some (mkResponse 429 None)).

Definition accountA : AccountConfig :=
  mkAccount (Some "A") (Some "ok main a") (Some "ok sponsor") (Some "GRECEIVER").

Definition accountB : AccountConfig :=
  mkAccount (Some "B") (Some "ok main b") (Some "ok sponsor") (Some "GRECEIVER").

(** No [name], no [mainMnemonic]. *)
Definition accountNoMain : AccountConfig :=
  mkAccount None None (Some "ok sponsor") (Some "GRECEIVER").

(** No [name], every other field set. *)
Definition accountUnnamed : AccountConfig :=
  mkAccount None (Some "ok abandon ability able about") (Some "ok sponsor")
            (Some "GRECEIVER").

(** No [receiverAddress]. *)
Definition accountNoReceiver : AccountConfig :=
  mkAccount (Some "C") (Some "ok main c") (Some "ok sponsor") None.

(** A main mnemonic that fails validation. *)
Definition accountBadMnemonic : AccountConfig :=
  mkAccount None (Some "wrong words never validate") (Some "ok sponsor")
            (Some "GRECEIVER").

(** Two pending balances; the first submission is answered with 429. *)
Definition envFirstSubmitFails : Env nat :=
  demoEnv [bal1; bal2]
          (fun k => if Nat.eqb k 0 then Throw rejected429
                    else Return (mkSubmitResult "HASH"))
          [accountA; accountB].

(** One pending balance; every submission succeeds. *)
Definition envAllOk : Env nat :=
  demoEnv [bal1] (fun _ => Return (mkSubmitResult "0123456789abcdefHASH"))
          [accountA; accountB].

(** As [envAllOk], with a first account that has neither name nor main
    mnemonic in the configuration file. *)
Definition envBadConfig : Env nat :=
  demoEnv [bal1] (fun _ => Return (mkSubmitResult "0123456789abcdefHASH"))
          [accountNoMain; accountB].

(** A second scripted environment: the answer to the balance query, to the
    k-th submission, to a notification and to the reading of the
    configuration are given, and so are the notifier's credentials. *)
Definition scriptedEnv (query : Result (list ClaimableBalanceRecord))
           (submit : nat -> Result SubmitResult)
           (token chat : option string) (post : Result unit)
           (stored : Result (list AccountConfig)) : Env nat :=
  {| validateMnemonic := fun m => String.prefix "ok" m;
     mnemonicToSeed := fun m => m;
     toString_hex := fun s => s;
     derivePath := fun _ seed => seed;
     fromRawEd25519Seed := fun key => mkKeypair ("G-" ++ key) ("S-" ++ key);
     fromSecret := fun s => mkKeypair ("G-" ++ String.substring 2 (String.length s) s) s;
     check_claimClaimableBalance := fun _ => None;
     check_payment :=
       fun destination _ _ =>
         if String.prefix "G" destination then None
         else Some (new_Error "destination is invalid");
     check_feeBump := fun _ _ _ _ => None;
     horizon_claimableBalances := fun _ _ w => (query, w);
     horizon_loadAccount := fun pk w => (Return (mkAccountResponse pk "7"), w);
     horizon_fetchBaseFee := fun w => (Return 100, w);
     horizon_submitTransaction := fun _ w => (submit w, S w);
     axios_post := fun _ _ w => (post, w);
     TELEGRAM_BOT_TOKEN := token;
     TELEGRAM_CHAT_ID := chat;
     readAccounts := fun w => (stored, w) |}.

Definition networkDown : JsError := mkJsError "Error" "Network Error" None.

Definition txFailed : JsError :=
  mkJsError "Error" "Request failed with status code 400"
    (Some (mkResponse 400
             (Some (mkData (Some (mkExtras
                (Some (mkResultCodes "tx_failed" ["op_does_not_exist"])))))))).

(** Notifier configured, the messaging API refuses the post. *)
Definition envNotifyFails : Env nat :=
  scriptedEnv (Return [bal1; bal2]) (fun _ => Return (mkSubmitResult "0123456789abcdefHASH"))
              (Some "TOKEN") (Some "42") (Throw networkDown)
              (Return [accountA; accountUnnamed; accountB]).

(** The second submission is rejected with result codes. *)
Definition envSecondRejected : Env nat :=
  scriptedEnv (Return [bal1; bal2])
              (fun k => if Nat.eqb k 1 then Throw txFailed
                        else Return (mkSubmitResult "0123456789abcdefHASH"))
              (Some "TOKEN") (Some "42") (Return tt)
              (Return [accountA; accountB]).

Definition envNoBalances : Env nat :=
  scriptedEnv (Return []) (fun _ => Return (mkSubmitResult "HASH"))
              None None (Return tt) (Return [accountA]).

Definition envQueryDown : Env nat :=
  scriptedEnv (Throw networkDown) (fun _ => Return (mkSubmitResult "HASH"))
              None None (Return tt) (Return [accountA]).

Definition envNoConfig : Env nat :=
  scriptedEnv (Return [bal1]) (fun _ => Return (mkSubmitResult "HASH"))
              None None (Return tt)
              (Throw (new_Error "ENOENT: no such file or directory, open 'accounts.json'")).

Definition envEmptyConfig : Env nat :=
  scriptedEnv (Return [bal1]) (fun _ => Return (mkSubmitResult "HASH"))
              None None (Return tt) (Return []).

(** A receiver address that the SDK refuses. *)
Definition accountBadReceiver : AccountConfig :=
  mkAccount (Some "D") (Some "ok main d") (Some "ok sponsor") (Some "not an address").

Definition st0 : State nat := mkState 0%nat [].

(** The state in which [processAccount] enters the loop for [accountA]. *)
Definition loopEntryA : State nat :=
  mkState 0%nat
    [ConsoleLog [AStr (msg_processing "A")];
     CryptoDerive derivationPath; CryptoDerive derivationPath;
     NetClaimableBalances "G-ok main a" 10].

Definition keyA : Keypair := keypairOf envFirstSubmitFails "ok main a".
Definition keyS : Keypair := keypairOf envFirstSubmitFails "ok sponsor".

(** * Reasoning about runs *)

Section Runs.

Variable World : Type.

Local Abbreviation M := (M World).

Lemma appends_ret {A} P (a : A) : appends P (ret (World := World) a).
Proof.
  intros st r st' H. inversion H; subst. exists []. now rewrite app_nil_r.
Qed.

Lemma appends_lift {A} P (x : Result A) : appends P (lift (World := World) x).
Proof.
  intros st r st' H. inversion H; subst. exists []. now rewrite app_nil_r.
Qed.

Lemma appends_throw {A} P e : appends P (throw (World := World) (A := A) e).
Proof.
  intros st r st' H. inversion H; subst. exists []. now rewrite app_nil_r.
Qed.

Lemma appends_emit (P : Event -> Prop) ev : P ev -> appends P (emit (World := World) ev).
Proof.
  intros HP st r st' H. inversion H; subst. exists [ev]. simpl. auto.
Qed.

Lemma appends_call {A} (P : Event -> Prop) ev (f : World -> Result A * World) :
  P ev -> appends P (call ev f).
Proof.
  intros HP st r st' H. unfold call in H. destruct (f (world st)) as [r0 w'].
  inversion H; subst. exists [ev]. simpl. auto.
Qed.

Lemma appends_bind_yields {A B} P (c : M A) (k : A -> M B) :
  appends P c -> (forall a, yields c a -> appends P (k a)) -> appends P (bind c k).
Proof.
  intros Hc Hk st r st' H. unfold bind in H.
  destruct (c st) as [[a | e] st1] eqn:E.
  - destruct (Hc _ _ _ E) as (evs1 & T1 & F1).
    assert (Y : yields c a) by (exists st, st1; exact E).
    destruct (Hk a Y _ _ _ H) as (evs2 & T2 & F2).
    exists (evs1 ++ evs2)%list. split.
    + now rewrite T2, T1, app_assoc.
    + apply Forall_app; auto.
  - inversion H; subst. eauto.
Qed.

Lemma appends_bind {A B} P (c : M A) (k : A -> M B) :
  appends P c -> (forall a, appends P (k a)) -> appends P (bind c k).
Proof. intros Hc Hk. apply appends_bind_yields; auto. Qed.

Lemma appends_try_catch {A} P (c : M A) h :
  appends P c -> (forall e, appends P (h e)) -> appends P (try_catch c h).
Proof.
  intros Hc Hh st r st' H. unfold try_catch in H.
  destruct (c st) as [[a | e] st1] eqn:E.
  - inversion H; subst. eauto.
  - destruct (Hc _ _ _ E) as (evs1 & T1 & F1).
    destruct (Hh e _ _ _ H) as (evs2 & T2 & F2).
    exists (evs1 ++ evs2)%list. split.
    + now rewrite T2, T1, app_assoc.
    + apply Forall_app; auto.
Qed.

Lemma appends_forEach {A} P (xs : list A) (body : A -> M unit) :
  (forall x, In x xs -> appends P (body x)) -> appends P (forEach xs body).
Proof.
  induction xs as [| x xs IH]; intros H; simpl.
  - apply appends_ret.
  - apply appends_bind.
    + apply H. now left.
    + intros _. apply IH. intros y Hy. apply H. now right.
Qed.

Lemma appends_weaken {A} (P Q : Event -> Prop) (c : M A) :
  (forall ev, P ev -> Q ev) -> appends P c -> appends Q c.
Proof.
  intros PQ Hc st r st' H. destruct (Hc _ _ _ H) as (evs & T & F).
  exists evs. split; auto. eapply Forall_impl; eauto.
Qed.

Lemma yields_lift {A} (x : Result A) a : yields (lift (World := World) x) a -> x = Return a.
Proof. intros (st & st' & H). now inversion H. Qed.

Lemma yields_call {A} ev (f : World -> Result A * World) a :
  yields (call ev f) a -> exists w w', f w = (Return a, w').
Proof.
  intros (st & st' & H). unfold call in H.
  destruct (f (world st)) as [r w'] eqn:E. inversion H; subst. eauto.
Qed.

(** A thrown error skips the rest of a [forEach]. *)
Lemma forEach_app_throw {A} (body : A -> M unit) pre x post st st1 st2 e :
  forEach pre body st = (Return tt, st1) ->
  body x st1 = (Throw e, st2) ->
  forEach (pre ++ x :: post)%list body st = (Throw e, st2).
Proof.
  revert st. induction pre as [| p pre IH]; intros st Hpre Hx; simpl in *.
  - inversion Hpre; subst. unfold bind. now rewrite Hx.
  - unfold bind in *. destruct (body p st) as [[[] | e'] st'] eqn:E.
    + now apply IH.
    + discriminate.
Qed.

End Runs.


(** * Properties of the bot *)

Section Properties.

Variable World : Type.
Variable env : Env World.

Local Open Scope list_scope.

Ltac run :=
  unfold processAccount, handleError, getPiWalletAddressFromSeed, sendTelegramMessage,
    console_log, console_error, bind, try_catch, lift, emit, ret, throw, after in *;
  simpl in *.

(** ** Control flow of [processAccount] *)

Lemma processAccount_throws account st :
  accountIdentifier account = Throw TypeError_substring ->
  processAccount env account st = (Throw TypeError_substring, st).
Proof. intros H. run. now rewrite H. Qed.

Lemma accountIdentifier_cases account :
  (exists id, accountIdentifier account = Return id)
  \/ (truthy (name account) = false /\ mainMnemonic account = None
      /\ accountIdentifier account = Throw TypeError_substring).
Proof.
  unfold accountIdentifier. destruct (truthy (name account)); eauto.
  destruct (mainMnemonic account); eauto.
Qed.

Lemma handleError_returns id e (st : State World) :
  exists line, handleError id e st = (Return tt, after st [line]) /\ is_log line = true.
Proof.
  unfold handleError. destruct (is_rate_limited e); eexists; split; reflexivity.
Qed.

(** Once the identifier is computed, nothing escapes [processAccount]. *)
Lemma processAccount_returns account id st :
  accountIdentifier account = Return id ->
  exists st', processAccount env account st = (Return tt, st').
Proof.
  intros H. unfold processAccount, bind, lift. rewrite H.
  unfold console_log, emit. destruct (incomplete account).
  - eexists; reflexivity.
  - unfold try_catch.
    destruct (tryBlock env id account _) as [[[] | e] st1]; eauto.
    destruct (handleError_returns id e st1) as (line & -> & _); eauto.
Qed.

(** A sweep over accounts whose identifiers can all be computed reaches
    its end. *)
Lemma forEach_processAccount_returns accounts :
  (forall a, In a accounts -> exists id, accountIdentifier a = Return id) ->
  forall st, exists st', forEach accounts (processAccount env) st = (Return tt, st').
Proof.
  induction accounts as [| a rest IH]; intros H st; simpl.
  - eexists; reflexivity.
  - destruct (H a (or_introl eq_refl)) as (id & Hid).
    destruct (processAccount_returns a st Hid) as (st1 & E).
    unfold bind. rewrite E. apply IH. intros b Hb. apply H. now right.
Qed.

(** A sweep that meets an account without name and main mnemonic throws. *)
Lemma forEach_processAccount_throws accounts account :
  In account accounts ->
  truthy (name account) = false -> mainMnemonic account = None ->
  forall st, exists st', forEach accounts (processAccount env) st = (Throw TypeError_substring, st').
Proof.
  intros Hin Hn Hm. induction accounts as [| a rest IH]; intros st; simpl.
  - contradiction.
  - unfold bind. destruct (accountIdentifier_cases a) as [(id & Hid) | (_ & _ & Ht)].
    + destruct (processAccount_returns a st Hid) as (st1 & E). rewrite E.
      destruct Hin as [-> | Hin].
      * unfold accountIdentifier in Hid. rewrite Hn, Hm in Hid. discriminate.
      * now apply IH.
    + rewrite (processAccount_throws a st Ht). eauto.
Qed.

(** ** The orchestrator *)

Lemma cycles_throw accounts n st e st' :
  forEach accounts (processAccount env) (after st [ConsoleLog [AStr msg_cycle_start]])
  = (Throw e, st') ->
  cycles env (S n) accounts st = (Throw e, st').
Proof.
  intros H. simpl. unfold cycle, bind, console_log, emit.
  unfold after in H. now rewrite H.
Qed.

Lemma runAllBotsContinuously_throw accounts n st w' e st' :
  accounts <> [] ->
  readAccounts env (world st) = (Return accounts, w') ->
  (forall st1, world st1 = w' ->
     trace st1 = trace st ++
       [ConsoleLog [AStr "Membaca konfigurasi akun dari 'accounts.json'..."];
        FsReadFile "accounts.json";
        ConsoleLog [AStr ("🤖 Konfigurasi untuk "
                          ++ Number_toString (Z.of_nat (length accounts))
                          ++ " akun berhasil dimuat. Memulai loop super cepat.")%string]] ->
     cycles env (S n) accounts st1 = (Throw e, st')) ->
  runAllBotsContinuously env (S n) st = (Throw e, st').
Proof.
  intros Hne Hread Hc.
  unfold runAllBotsContinuously, loadAccounts, bind, try_catch, call, console_log,
    console_error, emit, ret. simpl world. rewrite Hread.
  destruct accounts as [| a rest]; [congruence |].
  cbn [length Nat.eqb]. apply Hc; simpl; auto.
  now rewrite <- !app_assoc.
Qed.

(** C10: an account without [name] and without [mainMnemonic] makes
    [processAccount] throw a TypeError on line 50, before anything is
    logged or validated and outside the [try]; the error leaves the
    account loop and the endless loop, and the top-level [catch] logs it
    as fatal: the orchestrator has ended within its first sweep. *)
Theorem unnamed_account_without_main_mnemonic_is_fatal account :
  truthy (name account) = false ->
  mainMnemonic account = None ->
  (forall st, processAccount env account st = (Throw TypeError_substring, st))
  /\ (forall accounts st, In account accounts ->
        exists st', forEach accounts (processAccount env) st
                    = (Throw TypeError_substring, st'))
  /\ (forall accounts st w' n, In account accounts ->
        readAccounts env (world st) = (Return accounts, w') ->
        exists st',
          main env (S n) st
          = (Return tt, after st' [ConsoleError [AStr msg_fatal; AErr TypeError_substring]])
          /\ main env (S n) st = main env 1 st).
Proof.
  intros Hn Hm. split; [| split].
  - intros st. apply processAccount_throws.
    unfold accountIdentifier. now rewrite Hn, Hm.
  - intros accounts st Hin. now apply forEach_processAccount_throws with account.
  - intros accounts st w' n Hin Hread.
    set (st1 := mkState w'
           (trace (after st [ConsoleLog [AStr "🚀 Memulai bot klaim Pi..."]]) ++
             [ConsoleLog [AStr "Membaca konfigurasi akun dari 'accounts.json'..."];
              FsReadFile "accounts.json";
              ConsoleLog [AStr ("🤖 Konfigurasi untuk "
                                ++ Number_toString (Z.of_nat (length accounts))
                                ++ " akun berhasil dimuat. Memulai loop super cepat.")%string]])).
    destruct (forEach_processAccount_throws accounts account Hin Hn Hm
                (after st1 [ConsoleLog [AStr msg_cycle_start]])) as (st' & E).
    assert (R : forall k, runAllBotsContinuously env (S k)
                  (after st [ConsoleLog [AStr "🚀 Memulai bot klaim Pi..."]])
                = (Throw TypeError_substring, st')).
    { intros k. apply runAllBotsContinuously_throw with accounts w'.
      - intros ->. contradiction.
      - exact Hread.
      - intros s Hw Ht. apply cycles_throw.
        assert (s = st1) as -> by (destruct s; simpl in *; subst; reflexivity).
        exact E. }
    assert (Mn : forall k, main env (S k) st
                 = (Return tt, after st' [ConsoleError [AStr msg_fatal; AErr TypeError_substring]])).
    { intros k. unfold main, bind, try_catch, console_log, console_error, emit.
      change (mkState (world st) (trace st ++ [ConsoleLog [AStr "🚀 Memulai bot klaim Pi..."]]))
        with (after st [ConsoleLog [AStr "🚀 Memulai bot klaim Pi..."]]).
      now rewrite R. }
    exists st'. split; [apply Mn |]. now rewrite !Mn.
Qed.

(** ** Validation of the configuration *)

(** C3 (amended): when one of [mainMnemonic], [sponsorMnemonic] and
    [receiverAddress] is missing (absent or empty) and the display
    identifier can be computed, [processAccount] logs the header line and
    one error line naming the account, and returns: the world is untouched
    and nothing else happens (no key derivation, no query, no submission).
    The identifier is the name when there is one, otherwise the first
    fifteen characters of the main mnemonic followed by three dots. *)
Theorem incomplete_account_is_skipped account id st :
  accountIdentifier account = Return id ->
  truthy (mainMnemonic account) = false
  \/ truthy (sponsorMnemonic account) = false
  \/ truthy (receiverAddress account) = false ->
  processAccount env account st
  = (Return tt, after st [ConsoleLog [AStr (msg_processing id)];
                          ConsoleError [AStr (msg_incomplete id)]])
  /\ (truthy (name account) = true -> name account = Some id)
  /\ (truthy (name account) = false ->
      exists m, mainMnemonic account = Some m /\ id = (js_substring0 15 m ++ "...")%string).
Proof.
  intros Hid Hmiss. split; [| split].
  - assert (I : incomplete account = true).
    { unfold incomplete. destruct Hmiss as [-> | [-> | ->]]; simpl;
        rewrite ?orb_true_r; reflexivity. }
    run. rewrite Hid, I. simpl. now rewrite <- app_assoc.
  - intros Hn. unfold accountIdentifier in Hid. rewrite Hn in Hid.
    destruct (name account); simpl in *; congruence.
  - intros Hn. unfold accountIdentifier in Hid. rewrite Hn in Hid.
    destruct (mainMnemonic account) as [m |]; [| discriminate].
    exists m. split; congruence.
Qed.

(** ** The [catch] block *)

(** C8: a failure [e] thrown inside the [try] block is caught and answered
    with exactly one error line, after which [processAccount] returns.  If
    [e] carries a response with status 429 the line is the rate-limited
    line.  Otherwise, if the response carries data with extras with result
    codes, the line is the error line with those codes; and if there is no
    response, no data, no extras or no result codes, it is the error line
    with the error's message.  The rate-limited line is never equal to a
    generic one. *)
Theorem caught_error_classification account id st e st1 :
  accountIdentifier account = Return id ->
  incomplete account = false ->
  tryBlock env id account (after st [ConsoleLog [AStr (msg_processing id)]]) = (Throw e, st1) ->
  exists line,
    processAccount env account st = (Return tt, after st1 [line])
    /\ (forall r, response e = Some r -> status r = 429 ->
        line = ConsoleError [AStr (msg_rate_limited id)])
    /\ (forall r d x codes,
          response e = Some r -> status r <> 429 ->
          data r = Some d -> extras d = Some x -> result_codes x = Some codes ->
          line = ConsoleError [AStr (msg_error id); ACodes codes])
    /\ (response e = None
        \/ (exists r,
              response e = Some r /\ status r <> 429
              /\ (data r = None
                  \/ exists d,
                       data r = Some d
                       /\ (extras d = None
                           \/ exists x, extras d = Some x /\ result_codes x = None))) ->
        line = ConsoleError [AStr (msg_error id); AStr (message e)])
    /\ (forall id' detail,
          ConsoleError [AStr (msg_rate_limited id)]
          <> ConsoleError [AStr (msg_error id'); detail]).
Proof.
  intros Hid Hinc Htry.
  assert (P : processAccount env account st = handleError id e st1).
  { unfold processAccount, bind, lift, console_log, emit, try_catch.
    rewrite Hid, Hinc. unfold after in Htry. now rewrite Htry. }
  rewrite P. unfold handleError, console_error, emit, errorMessage, result_codes_of,
    is_rate_limited.
  destruct (response e) as [r |] eqn:Hr.
  - destruct (status r =? 429) eqn:Hs.
    + apply Z.eqb_eq in Hs.
      eexists. split; [reflexivity |]. split; [reflexivity |].
      split; [| split; [| discriminate]].
      * intros r' d x codes [= <-] N. contradiction.
      * intros [H | (r' & [= <-] & N & _)]; [discriminate | contradiction].
    + apply Z.eqb_neq in Hs.
      eexists. split; [reflexivity |].
      split; [intros r' [= <-] E; contradiction |].
      split; [| split; [| discriminate]].
      * intros r' d x codes [= <-] _ -> -> ->. reflexivity.
      * intros [H | (r' & [= <-] & _ & C)]; [discriminate |].
        destruct C as [-> | (d & -> & [-> | (x & -> & ->)])]; reflexivity.
  - eexists. split; [reflexivity |].
    split; [discriminate |]. split; [discriminate |]. split; [| discriminate].
    reflexivity.
Qed.

(** ** Invalid mnemonics *)

Lemma getPi_invalid m st :
  validateMnemonic env m = false ->
  getPiWalletAddressFromSeed env m st = (Throw (mnemonicError m), st).
Proof. intros V. run. now rewrite V. Qed.

Lemma processAccount_main_invalid account id st :
  accountIdentifier account = Return id ->
  incomplete account = false ->
  validateMnemonic env (the (mainMnemonic account)) = false ->
  processAccount env account st
  = (Return tt, after st [ConsoleLog [AStr (msg_processing id)];
                          line_error id (mnemonicError (the (mainMnemonic account)))]).
Proof.
  intros Hid Hinc V.
  unfold processAccount, tryBlock, getPiWalletAddressFromSeed, handleError, bind, lift,
    console_log, console_error, emit, try_catch, throw.
  rewrite Hid, Hinc, V. simpl. unfold after. now rewrite <- app_assoc.
Qed.

Lemma processAccount_sponsor_invalid account id st :
  accountIdentifier account = Return id ->
  incomplete account = false ->
  validateMnemonic env (the (mainMnemonic account)) = true ->
  validateMnemonic env (the (sponsorMnemonic account)) = false ->
  processAccount env account st
  = (Return tt, after st [ConsoleLog [AStr (msg_processing id)];
                          CryptoDerive derivationPath;
                          line_error id (mnemonicError (the (sponsorMnemonic account)))]).
Proof.
  intros Hid Hinc V1 V2.
  unfold processAccount, tryBlock, getPiWalletAddressFromSeed, handleError, bind, lift,
    console_log, console_error, emit, try_catch, throw, ret.
  rewrite Hid, Hinc, V1, V2. simpl. unfold after. now rewrite <- !app_assoc.
Qed.

(** C6: a mnemonic [m] that fails validation makes the derivation throw
    the invalid-mnemonic error without touching the state.  In
    [processAccount] that error reaches the [catch] before any ledger
    query: the run ends with the error line and no network or signing
    event.  For every account and every run, either both mnemonics pass
    validation or the run leaves the world as it was and contains no
    network and no signing event. *)
Theorem invalid_mnemonic_rejected m :
  validateMnemonic env m = false ->
  (forall st, getPiWalletAddressFromSeed env m st = (Throw (mnemonicError m), st))
  /\ (forall account id st,
        accountIdentifier account = Return id ->
        incomplete account = false ->
        mainMnemonic account = Some m ->
        processAccount env account st
        = (Return tt, after st [ConsoleLog [AStr (msg_processing id)];
                                line_error id (mnemonicError m)]))
  /\ (forall account id st,
        accountIdentifier account = Return id ->
        incomplete account = false ->
        validateMnemonic env (the (mainMnemonic account)) = true ->
        sponsorMnemonic account = Some m ->
        processAccount env account st
        = (Return tt, after st [ConsoleLog [AStr (msg_processing id)];
                                CryptoDerive derivationPath;
                                line_error id (mnemonicError m)]))
  /\ (forall account st r st',
        processAccount env account st = (r, st') ->
        (validateMnemonic env (the (mainMnemonic account)) = true
         /\ validateMnemonic env (the (sponsorMnemonic account)) = true)
        \/ (world st' = world st
            /\ exists evs, trace st' = trace st ++ evs
                           /\ Forall (fun ev => is_network ev = false /\ is_sign ev = false) evs)).
Proof.
  intros V. split; [| split; [| split]].
  - intros st. now apply getPi_invalid.
  - intros account id st Hid Hinc Hm.
    rewrite (processAccount_main_invalid account st Hid Hinc); rewrite Hm; auto.
  - intros account id st Hid Hinc V1 Hs.
    rewrite (processAccount_sponsor_invalid account st Hid Hinc V1); rewrite Hs; auto.
  - intros account st r st' H.
    destruct (accountIdentifier_cases account) as [(id & Hid) | (_ & _ & Ht)].
    + destruct (incomplete account) eqn:Hinc.
      * right. unfold processAccount, bind, lift, console_log, console_error, emit in H.
        rewrite Hid, Hinc in H. inversion H; subst; simpl. split; auto.
        rewrite <- app_assoc. eexists; split; [reflexivity |].
        repeat constructor.
      * destruct (validateMnemonic env (the (mainMnemonic account))) eqn:V1.
        -- destruct (validateMnemonic env (the (sponsorMnemonic account))) eqn:V2; auto.
           right. rewrite (processAccount_sponsor_invalid account st Hid Hinc V1 V2) in H.
           inversion H; subst; simpl. split; auto.
           eexists; split; [reflexivity |]. repeat constructor.
        -- right. rewrite (processAccount_main_invalid account st Hid Hinc V1) in H.
           inversion H; subst; simpl. split; auto.
           eexists; split; [reflexivity |]. repeat constructor.
    + right. rewrite (processAccount_throws account st Ht) in H.
      inversion H; subst. split; auto. exists []. now rewrite app_nil_r.
Qed.

(** ** What the loop body and [processAccount] emit *)

Lemma yields_sign tx kp tx' :
  yields (sign (World := World) tx kp) tx' ->
  tx' = mkTransaction (tx_source tx) (tx_fee tx) (tx_networkPassphrase tx)
          (tx_operations tx) (tx_timeout tx) (tx_signatures tx ++ [publicKey kp]).
Proof.
  intros (st & st' & H). unfold sign, bind, emit, ret in H. now inversion H.
Qed.

Lemma yields_signFeeBump tx kp tx' :
  yields (signFeeBump (World := World) tx kp) tx' ->
  tx' = mkFeeBump (fb_feeSource tx) (fb_fee tx) (fb_inner tx) (fb_networkPassphrase tx)
          (fb_signatures tx ++ [publicKey kp]).
Proof.
  intros (st & st' & H). unfold signFeeBump, bind, emit, ret in H. now inversion H.
Qed.

Lemma sendTelegramMessage_appends (P : Event -> Prop) msg :
  (forall url chat, P (NetPost url (mkTelegramBody chat msg "Markdown"))) ->
  (forall m, P (ConsoleError [AStr "⚠️ Gagal kirim ke Telegram:"; AStr m])) ->
  appends P (sendTelegramMessage env msg).
Proof.
  intros Hpost Hfail. unfold sendTelegramMessage.
  destruct (negb (truthy (TELEGRAM_BOT_TOKEN env)) || negb (truthy (TELEGRAM_CHAT_ID env))).
  - apply appends_ret.
  - apply appends_try_catch.
    + apply appends_call. apply Hpost.
    + intros e. apply appends_emit. apply Hfail.
Qed.

Lemma processBalance_events id account receiver mainKeypair sponsorKeypair cb :
  appends (BalanceEvent env id account receiver mainKeypair sponsorKeypair cb)
          (processBalance env id account receiver mainKeypair sponsorKeypair cb).
Proof.
  unfold processBalance.
  apply appends_bind; [apply appends_emit; constructor | intros _].
  apply appends_bind; [apply appends_call; constructor | intros mainAccount].
  apply appends_bind_yields; [apply appends_lift | intros op1 Y1].
  apply yields_lift in Y1. unfold Operation_claimClaimableBalance in Y1.
  destruct (check_claimClaimableBalance env (cb_id cb)); [discriminate |].
  injection Y1 as <-.
  apply appends_bind_yields; [apply appends_lift | intros op2 Y2].
  apply yields_lift in Y2. unfold Operation_payment in Y2.
  destruct (check_payment env receiver Asset_native (cb_amount cb)); [discriminate |].
  injection Y2 as <-.
  apply appends_bind_yields; [apply appends_lift | intros inner Y3].
  apply yields_lift in Y3. simpl in Y3. injection Y3 as <-.
  apply appends_bind_yields;
    [apply appends_bind; [apply appends_emit; constructor | intros _; apply appends_ret]
    | intros signed Y4].
  apply yields_sign in Y4. simpl in Y4. subst signed.
  apply appends_bind_yields; [apply appends_call; constructor | intros b Y5].
  apply yields_call in Y5. destruct Y5 as (w & w' & Hfee).
  apply appends_bind_yields; [apply appends_lift | intros bump Y6].
  apply yields_lift in Y6. unfold buildFeeBumpTransaction in Y6.
  destruct (check_feeBump env _ _ _ _); [discriminate |].
  injection Y6 as <-.
  apply appends_bind_yields;
    [apply appends_bind; [apply appends_emit; constructor | intros _; apply appends_ret]
    | intros sbump Y7].
  apply yields_signFeeBump in Y7. simpl in Y7. subst sbump.
  apply appends_bind; [apply appends_emit; constructor | intros _].
  apply appends_bind; [apply appends_call | intros result].
  { eapply be_submit with (mainAccount := mainAccount). exact Hfee. }
  apply appends_bind; [apply appends_emit; constructor | intros _].
  apply sendTelegramMessage_appends; intros; constructor.
Qed.

Lemma handleError_appends id account e :
  appends (AccountEvent env id account) (handleError (World := World) id e).
Proof.
  unfold handleError. destruct (is_rate_limited e); apply appends_emit; constructor.
Qed.

Lemma tryBlock_events id account :
  appends (AccountEvent env id account) (tryBlock env id account).
Proof.
  assert (G : forall m, appends (AccountEvent env id account)
                                (getPiWalletAddressFromSeed env m)).
  { intros m. unfold getPiWalletAddressFromSeed.
    destruct (negb (validateMnemonic env m)); [apply appends_throw |].
    apply appends_bind; [apply appends_emit; constructor | intros _; apply appends_ret]. }
  unfold tryBlock.
  apply appends_bind; [apply G | intros mainWallet].
  apply appends_bind; [apply G | intros sponsorWallet].
  apply appends_bind; [apply appends_call; constructor | intros claimables].
  destruct (length claimables =? 0)%nat.
  - apply appends_emit; constructor.
  - apply appends_forEach. intros cb _.
    eapply appends_weaken; [| apply processBalance_events].
    intros ev Hev. eapply ae_balance; eauto.
Qed.

Lemma processAccount_events id account :
  accountIdentifier account = Return id ->
  appends (AccountEvent env id account) (processAccount env account).
Proof.
  intros Hid. unfold processAccount. rewrite Hid.
  apply appends_bind_yields; [apply appends_lift | intros id' Y].
  apply yields_lift in Y. injection Y as <-.
  apply appends_bind; [apply appends_emit; constructor | intros _].
  destruct (incomplete account).
  - apply appends_emit; constructor.
  - apply appends_try_catch; [apply tryBlock_events | intros e; apply handleError_appends].
Qed.

Lemma appends_In {A} (P : Event -> Prop) (c : M World A) st r st' :
  appends P c -> c st = (r, st') ->
  exists evs, trace st' = trace st ++ evs /\ forall ev, In ev evs -> P ev.
Proof.
  intros Hc H. destruct (Hc _ _ _ H) as (evs & T & F).
  exists evs. split; auto. now apply Forall_forall.
Qed.

Lemma round53_exact z : Z.abs z <= 2 ^ 53 -> round53 z = z.
Proof.
  intros H. unfold round53. apply Z.leb_le in H. now rewrite H.
Qed.

Lemma decimal_value_toString z : decimal_value (Number_toString z) = Some z.
Proof.
  unfold decimal_value, Number_toString.
  rewrite NilZero.isi.
  - simpl. now rewrite DecimalZ.of_to.
  - destruct z; simpl; try discriminate.
    intros [= H]. now apply DecimalPos.Unsigned.to_uint_nonnil in H.
  - destruct z; simpl; try discriminate.
    intros [= H]. now apply DecimalPos.Unsigned.to_uint_nonnil in H.
Qed.

Lemma feeBumpFee_exact b :
  Z.abs (b * 120) <= 2 ^ 53 ->
  feeBumpFee b = Number_toString (120 * b)
  /\ decimal_value (feeBumpFee b) = Some (120 * b).
Proof.
  intros H. unfold feeBumpFee, js_mul, parseInt.
  rewrite (round53_exact _ H). rewrite (Z.mul_comm b 120).
  split; [reflexivity | apply decimal_value_toString].
Qed.

(** ** Identifiers in the log *)

Lemma AccountEvent_LogLine id account ev :
  AccountEvent env id account ev -> is_log ev = true -> LogLine id ev.
Proof.
  intros H L. inversion H as [| | | | | mk sk cb ev' B | |]; subst;
    try discriminate; try constructor.
  inversion B; subst; try discriminate; constructor.
Qed.

(** C9: for an account without a name, the identifier in its log lines is
    the first 15 characters of the main mnemonic followed by three dots:
    every line that [processAccount] logs is one of the program's line
    templates instantiated with that identifier, the header line first.
    The error thrown for an invalid mnemonic has the message
    "Mnemonic tidak valid: " followed by the first 10 characters of the
    mnemonic and three dots, and when the main mnemonic is the invalid one
    that message is logged too. *)
Theorem unnamed_account_logs_mnemonic_prefix account m :
  truthy (name account) = false ->
  mainMnemonic account = Some m ->
  (forall st r st',
      processAccount env account st = (r, st') ->
      exists evs,
        trace st' = trace st ++ ConsoleLog [AStr (msg_processing (js_substring0 15 m ++ "..."))] :: evs
        /\ forall ev, In ev evs -> is_log ev = true ->
                      LogLine (js_substring0 15 m ++ "...") ev)
  /\ (forall m' st,
        validateMnemonic env m' = false ->
        exists e, getPiWalletAddressFromSeed env m' st = (Throw e, st)
                  /\ message e = ("Mnemonic tidak valid: " ++ js_substring0 10 m' ++ "...")%string)
  /\ (forall st,
        incomplete account = false ->
        validateMnemonic env m = false ->
        processAccount env account st
        = (Return tt,
           after st [ConsoleLog [AStr (msg_processing (js_substring0 15 m ++ "..."))];
                     ConsoleError
                       [AStr (msg_error (js_substring0 15 m ++ "..."));
                        AStr ("Mnemonic tidak valid: " ++ js_substring0 10 m ++ "...")]])).
Proof.
  intros Hn Hm.
  assert (Hid : accountIdentifier account = Return (js_substring0 15 m ++ "...")%string).
  { unfold accountIdentifier. now rewrite Hn, Hm. }
  split; [| split].
  - intros st r st' H. unfold processAccount, bind, lift in H. rewrite Hid in H.
    unfold console_log at 1, emit at 1 in H.
    set (id := (js_substring0 15 m ++ "...")%string) in *.
    set (st1 := mkState (world st) (trace st ++ [ConsoleLog [AStr (msg_processing id)]])) in H.
    assert (A : appends (AccountEvent env id account)
                  (if incomplete account then console_error [AStr (msg_incomplete id)]
                   else try_catch (tryBlock env id account) (handleError id))).
    { destruct (incomplete account).
      - apply appends_emit; constructor.
      - apply appends_try_catch;
          [apply tryBlock_events | intros e; apply handleError_appends]. }
    destruct (appends_In st1 A H) as (evs & T & F).
    exists evs. split.
    + rewrite T. unfold st1. simpl. now rewrite <- app_assoc.
    + intros ev Hin L. apply AccountEvent_LogLine with account; auto.
  - intros m' st V. exists (mnemonicError m'). split; [now apply getPi_invalid | reflexivity].
  - intros st Hinc V.
    rewrite (processAccount_main_invalid account st Hid Hinc); rewrite Hm; auto.
Qed.

(** ** Failures inside the loop over the balance records *)

Lemma tryBlock_valid id account st recs w1 :
  validateMnemonic env (the (mainMnemonic account)) = true ->
  validateMnemonic env (the (sponsorMnemonic account)) = true ->
  horizon_claimableBalances env
    (publicKey (keypairOf env (the (mainMnemonic account)))) 10 (world st)
  = (Return recs, w1) ->
  tryBlock env id account st
  = (if (length recs =? 0)%nat then console_log [AStr (msg_none id)]
     else forEach recs
            (processBalance env id account (the (receiverAddress account))
               (keypairOf env (the (mainMnemonic account)))
               (keypairOf env (the (sponsorMnemonic account)))))
      (mkState w1
         (trace st ++
            [CryptoDerive derivationPath; CryptoDerive derivationPath;
             NetClaimableBalances
               (publicKey (keypairOf env (the (mainMnemonic account)))) 10])).
Proof.
  intros V1 V2 Hq.
  unfold tryBlock, getPiWalletAddressFromSeed, bind, emit, ret, call.
  rewrite V1, V2. cbn [negb world trace w_secretKey].
  unfold keypairOf in Hq. rewrite Hq.
  unfold keypairOf. now rewrite <- !app_assoc.
Qed.

(** C1 (amended): when the processing of a balance record [cb] fails, the
    error leaves the loop: the run of [processAccount] ends in the state in
    which [cb] failed plus one error line, and returns normally.  The
    records after [cb] are not processed in this sweep and [cb] is not
    retried. *)
Theorem failed_record_ends_account_sweep account id st w1 pre cb post st1 st2 e :
  accountIdentifier account = Return id ->
  incomplete account = false ->
  validateMnemonic env (the (mainMnemonic account)) = true ->
  validateMnemonic env (the (sponsorMnemonic account)) = true ->
  horizon_claimableBalances env
    (publicKey (keypairOf env (the (mainMnemonic account)))) 10 (world st)
  = (Return (pre ++ cb :: post), w1) ->
  forEach pre
    (processBalance env id account (the (receiverAddress account))
       (keypairOf env (the (mainMnemonic account)))
       (keypairOf env (the (sponsorMnemonic account))))
    (mkState w1
       (trace st ++
          [ConsoleLog [AStr (msg_processing id)];
           CryptoDerive derivationPath; CryptoDerive derivationPath;
           NetClaimableBalances
             (publicKey (keypairOf env (the (mainMnemonic account)))) 10]))
  = (Return tt, st1) ->
  processBalance env id account (the (receiverAddress account))
    (keypairOf env (the (mainMnemonic account)))
    (keypairOf env (the (sponsorMnemonic account))) cb st1
  = (Throw e, st2) ->
  exists line,
    processAccount env account st = (Return tt, after st2 [line])
    /\ (line = ConsoleError [AStr (msg_rate_limited id)]
        \/ line = ConsoleError [AStr (msg_error id); errorMessage e]).
Proof.
  intros Hid Hinc V1 V2 Hq Hpre Hcb.
  assert (T : tryBlock env id account (after st [ConsoleLog [AStr (msg_processing id)]])
              = (Throw e, st2)).
  { rewrite (tryBlock_valid id account
               (after st [ConsoleLog [AStr (msg_processing id)]]) V1 V2 Hq).
    destruct (pre ++ cb :: post) as [| x xs] eqn:E.
    - destruct pre; discriminate.
    - cbn [length Nat.eqb]. rewrite <- E.
      apply forEach_app_throw with st1; auto.
      unfold after. cbn [trace]. rewrite <- app_assoc. exact Hpre. }
  unfold processAccount, bind, lift, console_log, emit, try_catch.
  rewrite Hid, Hinc. unfold after in T. rewrite T.
  unfold handleError, console_error, emit.
  destruct (is_rate_limited e); eexists; split; try reflexivity; auto.
Qed.

(** ** Isolation between accounts *)

Lemma processAccount_header account id st r st' :
  accountIdentifier account = Return id ->
  processAccount env account st = (r, st') ->
  exists evs, trace st' = trace st ++ ConsoleLog [AStr (msg_processing id)] :: evs.
Proof.
  intros Hid H. unfold processAccount, bind, lift in H. rewrite Hid in H.
  unfold console_log at 1, emit at 1 in H.
  set (st1 := mkState (world st) (trace st ++ [ConsoleLog [AStr (msg_processing id)]])) in H.
  assert (A : appends (fun _ => True)
                (if incomplete account then console_error [AStr (msg_incomplete id)]
                 else try_catch (tryBlock env id account) (handleError id))).
  { eapply appends_weaken with (P := AccountEvent env id account); [auto |].
    destruct (incomplete account).
    - apply appends_emit; constructor.
    - apply appends_try_catch;
        [apply tryBlock_events | intros e; apply handleError_appends]. }
  destruct (appends_In st1 A H) as (evs & T & _).
  exists evs. rewrite T. unfold st1. simpl. now rewrite <- app_assoc.
Qed.

(** When every identifier can be computed, a sweep returns normally and
    has logged the header line of every account: no failure inside one
    account keeps a later account from being processed. *)
Lemma forEach_processAccount_reaches_all accounts :
  (forall a, In a accounts -> exists id, accountIdentifier a = Return id) ->
  forall st, exists st' evs,
    forEach accounts (processAccount env) st = (Return tt, st')
    /\ trace st' = trace st ++ evs
    /\ forall a id, In a accounts -> accountIdentifier a = Return id ->
                    In (ConsoleLog [AStr (msg_processing id)]) evs.
Proof.
  induction accounts as [| a rest IH]; intros H st; simpl.
  - exists st, []. rewrite app_nil_r. repeat split. contradiction.
  - destruct (H a (or_introl eq_refl)) as (id & Hid).
    destruct (processAccount_returns a st Hid) as (st1 & E).
    destruct (processAccount_header a st Hid E) as (evs1 & T1).
    destruct (IH (fun b Hb => H b (or_intror Hb)) st1) as (st' & evs2 & E2 & T2 & F2).
    exists st', ((ConsoleLog [AStr (msg_processing id)] :: evs1) ++ evs2).
    unfold bind. rewrite E. split; [exact E2 | split].
    + now rewrite T2, T1, <- app_assoc.
    + intros b idb [-> | Hb] Hidb.
      * rewrite Hid in Hidb. injection Hidb as <-. apply in_or_app. left. now left.
      * apply in_or_app. right. eauto.
Qed.

(** The product of an integer beyond the exact range is rounded. *)
Remark js_mul_rounds_beyond_2_53 :
  js_mul (2 ^ 53 - 1) 120 = 1080863910568918912
  /\ (2 ^ 53 - 1) * 120 = 1080863910568918920.
Proof. split; reflexivity. Qed.

End Properties.

(** * Concrete runs *)

Section ConcreteRuns.

Local Open Scope list_scope.

Local Abbreviation header id := (ConsoleLog [AStr (msg_processing id)]).

(** C1, as stated, fails on the code: the ledger reports [bal1] then
    [bal2], the submission for [bal1] is answered with 429, and the run of
    [processAccount] ends without any line or submission for [bal2]. *)
Lemma next_record_skipped_after_failure :
  horizon_claimableBalances envFirstSubmitFails "G-ok main a" 10 0%nat
  = (Return [bal1; bal2], 0%nat)
  /\ fst (processBalance envFirstSubmitFails "A" accountA "GRECEIVER" keyA keyS bal1 loopEntryA)
     = Throw rejected429
  /\ fst (processAccount envFirstSubmitFails accountA st0) = Return tt
  /\ existsb (logs_text (msg_found "A" (cb_amount bal2)))
             (trace (snd (processAccount envFirstSubmitFails accountA st0))) = false
  /\ length (filter is_submit (trace (snd (processAccount envFirstSubmitFails accountA st0))))
     = 1%nat.
Proof. repeat split. Qed.

Lemma failed_record_ends_account_sweep_witness :
  exists line,
    processAccount envFirstSubmitFails accountA st0
    = (Return tt,
       after (snd (processBalance envFirstSubmitFails "A" accountA "GRECEIVER"
                     keyA keyS bal1 loopEntryA)) [line])
    /\ (line = ConsoleError [AStr (msg_rate_limited "A")]
        \/ line = ConsoleError [AStr (msg_error "A"); errorMessage rejected429]).
Proof.
  apply (@failed_record_ends_account_sweep nat envFirstSubmitFails accountA "A" st0
           0%nat [] bal1 [bal2] loopEntryA
           (snd (processBalance envFirstSubmitFails "A" accountA "GRECEIVER"
                   keyA keyS bal1 loopEntryA)) rejected429);
    reflexivity.
Defined.

(** C2 fails on the code at the configuration [accountNoMain; accountB]:
    the first account has neither name nor main mnemonic, line 50 throws
    outside the [try], the sweep is abandoned and the valid [accountB],
    which is processed without error on its own, is never reached; the
    top-level [catch] logs the fatal line. *)
Theorem account_without_identifier_aborts_sweep :
  readAccounts envBadConfig 0%nat = (Return [accountNoMain; accountB], 0%nat)
  /\ processAccount envBadConfig accountNoMain st0 = (Throw TypeError_substring, st0)
  /\ cycle envBadConfig [accountNoMain; accountB] st0
     = (Throw TypeError_substring, after st0 [ConsoleLog [AStr msg_cycle_start]])
  /\ fst (processAccount envBadConfig accountB st0) = Return tt
  /\ existsb (logs_text (msg_processing "B"))
             (trace (snd (processAccount envBadConfig accountB st0))) = true
  /\ existsb (logs_text (msg_processing "B"))
             (trace (snd (main envBadConfig 3 st0))) = false
  /\ existsb (logs_text msg_fatal) (trace (snd (main envBadConfig 3 st0))) = true.
Proof. repeat split. Qed.

(** C3, as stated, fails on the code: [accountUnnamed] has no name, yet it
    is not skipped; its keys are derived, the ledger is queried and a
    transaction is submitted. *)
Lemma unnamed_account_is_processed :
  name accountUnnamed = None
  /\ existsb is_network (trace (snd (processAccount envAllOk accountUnnamed st0))) = true
  /\ existsb is_crypto (trace (snd (processAccount envAllOk accountUnnamed st0))) = true
  /\ length (filter is_submit (trace (snd (processAccount envAllOk accountUnnamed st0))))
     = 1%nat
  /\ existsb (logs_text (msg_incomplete "ok abandon abil..."))
             (trace (snd (processAccount envAllOk accountUnnamed st0))) = false.
Proof. repeat split. Qed.

Lemma incomplete_account_is_skipped_witness :
  truthy (receiverAddress accountNoReceiver) = false
  /\ processAccount envAllOk accountNoReceiver st0
     = (Return tt, after st0 [header "C"; ConsoleError [AStr (msg_incomplete "C")]]).
Proof.
  split; [reflexivity |].
  apply (@incomplete_account_is_skipped nat envAllOk accountNoReceiver "C" st0).
  - reflexivity.
  - right; right; reflexivity.
Defined.

Lemma invalid_mnemonic_rejected_witness :
  validateMnemonic envAllOk "wrong words never validate" = false
  /\ getPiWalletAddressFromSeed envAllOk "wrong words never validate" st0
     = (Throw (mnemonicError "wrong words never validate"), st0).
Proof.
  split; [reflexivity |].
  apply (proj1 (@invalid_mnemonic_rejected nat envAllOk "wrong words never validate"
                  eq_refl)).
Defined.

Lemma caught_error_classification_witness :
  (exists st1,
      processAccount envFirstSubmitFails accountA st0
      = (Return tt, after st1 [ConsoleError [AStr (msg_rate_limited "A")]]))
  /\ (exists st1,
        processAccount envSecondRejected accountA st0
        = (Return tt,
           after st1 [ConsoleError [AStr (msg_error "A");
                                    ACodes (mkResultCodes "tx_failed"
                                              ["op_does_not_exist"])]]))
  /\ (exists st1,
        processAccount envQueryDown accountA st0
        = (Return tt, after st1 [ConsoleError [AStr (msg_error "A");
                                               AStr "Network Error"]])).
Proof.
  split; [| split].
  - assert (T : tryBlock envFirstSubmitFails "A" accountA (after st0 [header "A"])
                = (Throw rejected429,
                   snd (tryBlock envFirstSubmitFails "A" accountA (after st0 [header "A"]))))
      by (vm_compute; reflexivity).
    destruct (@caught_error_classification nat envFirstSubmitFails accountA "A" st0
                rejected429 _ eq_refl eq_refl T) as (line & E & L & _).
    eexists. rewrite E. now rewrite (L _ eq_refl eq_refl).
  - assert (T : tryBlock envSecondRejected "A" accountA (after st0 [header "A"])
                = (Throw txFailed,
                   snd (tryBlock envSecondRejected "A" accountA (after st0 [header "A"]))))
      by (vm_compute; reflexivity).
    destruct (@caught_error_classification nat envSecondRejected accountA "A" st0
                txFailed _ eq_refl eq_refl T) as (line & E & _ & L & _).
    eexists. rewrite E.
    rewrite (L _ _ _ _ eq_refl ltac:(discriminate) eq_refl eq_refl eq_refl).
    reflexivity.
  - assert (T : tryBlock envQueryDown "A" accountA (after st0 [header "A"])
                = (Throw networkDown,
                   snd (tryBlock envQueryDown "A" accountA (after st0 [header "A"]))))
      by (vm_compute; reflexivity).
    destruct (@caught_error_classification nat envQueryDown accountA "A" st0
                networkDown _ eq_refl eq_refl T) as (line & E & _ & _ & L & _).
    eexists. rewrite E. now rewrite (L (or_introl eq_refl)).
Defined.

Lemma unnamed_account_logs_mnemonic_prefix_witness :
  truthy (name accountBadMnemonic) = false
  /\ processAccount envAllOk accountBadMnemonic st0
     = (Return tt,
        after st0 [header "wrong words nev...";
                   ConsoleError [AStr (msg_error "wrong words nev...");
                                 AStr "Mnemonic tidak valid: wrong word..."]]).
Proof.
  split; [reflexivity |].
  apply (proj2 (proj2 (@unnamed_account_logs_mnemonic_prefix nat envAllOk accountBadMnemonic
                         "wrong words never validate" eq_refl eq_refl)) st0);
    reflexivity.
Defined.

Lemma unnamed_account_without_main_mnemonic_is_fatal_witness :
  truthy (name accountNoMain) = false
  /\ mainMnemonic accountNoMain = None
  /\ processAccount envBadConfig accountNoMain st0 = (Throw TypeError_substring, st0).
Proof.
  split; [reflexivity | split; [reflexivity |]].
  apply (proj1 (@unnamed_account_without_main_mnemonic_is_fatal nat envBadConfig
                  accountNoMain eq_refl eq_refl) st0).
Defined.

End ConcreteRuns.

(** * Further properties: notifier, record life cycle, configuration *)

Section Further.

Variable World : Type.
Variable env : Env World.

Local Open Scope list_scope.

(** ** The notifier *)

Lemma sendTelegramMessage_disabled msg st :
  truthy (TELEGRAM_BOT_TOKEN env) = false \/ truthy (TELEGRAM_CHAT_ID env) = false ->
  sendTelegramMessage env msg st = (Return tt, st).
Proof.
  intros H. unfold sendTelegramMessage.
  destruct H as [-> | ->]; simpl; rewrite ?orb_true_r; reflexivity.
Qed.

Lemma sendTelegramMessage_enabled msg st r w' :
  truthy (TELEGRAM_BOT_TOKEN env) = true ->
  truthy (TELEGRAM_CHAT_ID env) = true ->
  axios_post env (telegramUrl env) (telegramBody env msg) (world st) = (r, w') ->
  sendTelegramMessage env msg st
  = (Return tt,
     mkState w' (trace st ++
                   NetPost (telegramUrl env) (telegramBody env msg)
                   :: match r with
                      | Return _ => []
                      | Throw e => [line_post_failed (message e)]
                      end)).
Proof.
  intros Ht Hc Hp. unfold sendTelegramMessage. rewrite Ht, Hc. cbn [negb orb].
  unfold try_catch, call, console_error, emit.
  unfold telegramUrl, telegramBody in Hp. rewrite Hp.
  destruct r as [[] | e]; cbn [world trace].
  - reflexivity.
  - now rewrite <- app_assoc.
Qed.

Lemma sendTelegramMessage_returns msg st :
  exists st' notif,
    sendTelegramMessage env msg st = (Return tt, st')
    /\ trace st' = trace st ++ notif
    /\ (notif = []
        \/ notif = [NetPost (telegramUrl env) (telegramBody env msg)]
        \/ exists m, notif = [NetPost (telegramUrl env) (telegramBody env msg);
                              line_post_failed m]).
Proof.
  destruct (truthy (TELEGRAM_BOT_TOKEN env)) eqn:Ht;
    [destruct (truthy (TELEGRAM_CHAT_ID env)) eqn:Hc |].
  - destruct (axios_post env (telegramUrl env) (telegramBody env msg) (world st))
      as [r w'] eqn:Hp.
    rewrite (sendTelegramMessage_enabled msg st Ht Hc Hp).
    destruct r as [[] | e]; do 2 eexists; (split; [reflexivity |]); cbn [trace];
      (split; [reflexivity |]); eauto.
  - rewrite sendTelegramMessage_disabled by auto.
    exists st, []. rewrite app_nil_r. auto.
  - rewrite sendTelegramMessage_disabled by auto.
    exists st, []. rewrite app_nil_r. auto.
Qed.

(** X1: the notifier never throws.  Without a bot token or without a chat
    id it does nothing at all; with both it posts once to the bot's
    [sendMessage] address, with the chat id, the text and the Markdown
    parse mode, and a refused post only adds one error line carrying the
    error's message.  There is no second attempt. *)
Theorem notifier_never_throws msg st :
  exists st',
    sendTelegramMessage env msg st = (Return tt, st')
    /\ (truthy (TELEGRAM_BOT_TOKEN env) = false \/ truthy (TELEGRAM_CHAT_ID env) = false ->
        st' = st)
    /\ (truthy (TELEGRAM_BOT_TOKEN env) = true ->
        truthy (TELEGRAM_CHAT_ID env) = true ->
        world st' = snd (axios_post env (telegramUrl env) (telegramBody env msg) (world st))
        /\ count is_post (trace st') = S (count is_post (trace st))
        /\ forall r w',
             axios_post env (telegramUrl env) (telegramBody env msg) (world st) = (r, w') ->
             trace st'
             = trace st ++
                 NetPost ("https://api.telegram.org/bot" ++ the (TELEGRAM_BOT_TOKEN env)
                          ++ "/sendMessage")%string
                         (mkTelegramBody (the (TELEGRAM_CHAT_ID env)) msg "Markdown")
                 :: match r with
                    | Return _ => []
                    | Throw e => [ConsoleError [AStr "⚠️ Gagal kirim ke Telegram:";
                                                AStr (message e)]]
                    end).
Proof.
  destruct (truthy (TELEGRAM_BOT_TOKEN env)) eqn:Ht;
    [destruct (truthy (TELEGRAM_CHAT_ID env)) eqn:Hc |].
  - destruct (axios_post env (telegramUrl env) (telegramBody env msg) (world st))
      as [r w'] eqn:Hp.
    eexists. split; [apply (sendTelegramMessage_enabled msg st Ht Hc Hp) |].
    split; [intros [H | H]; discriminate |].
    intros _ _. cbn [world trace snd]. split; [reflexivity | split].
    + unfold count. rewrite filter_app, length_app.
      destruct r as [[] | e]; cbn; lia.
    + intros r' w'' [= <- <-]. reflexivity.
  - exists st. split; [apply sendTelegramMessage_disabled; auto |].
    split; [reflexivity | discriminate].
  - exists st. split; [apply sendTelegramMessage_disabled; auto |].
    split; [reflexivity | discriminate].
Qed.

(** ** The life cycle of one record *)

(** Up to the submission: the account is loaded, both operations and the
    envelope are accepted by the SDK, the base fee is fetched. *)
Lemma processBalance_reaches_submission id account receiver mainKeypair sponsorKeypair cb
      st acc w1 b w2 :
  horizon_loadAccount env (publicKey mainKeypair) (world st) = (Return acc, w1) ->
  check_claimClaimableBalance env (cb_id cb) = None ->
  check_payment env receiver Asset_native (cb_amount cb) = None ->
  horizon_fetchBaseFee env w1 = (Return b, w2) ->
  check_feeBump env (publicKey sponsorKeypair) (feeBumpFee b)
    (fb_inner (envelope receiver mainKeypair sponsorKeypair cb acc b)) networkPassphrase
  = None ->
  processBalance env id account receiver mainKeypair sponsorKeypair cb st
  = match horizon_submitTransaction env
            (envelope receiver mainKeypair sponsorKeypair cb acc b) w2 with
    | (Return result, w3) =>
        sendTelegramMessage env (msg_telegram account (cb_amount cb) (hash result))
          (mkState w3
             (trace st
              ++ submissionEvents id receiver mainKeypair sponsorKeypair cb acc b
              ++ [ConsoleLog [AStr (msg_success (hash result))]]))
    | (Throw e, w3) =>
        (Throw e,
         mkState w3
           (trace st ++ submissionEvents id receiver mainKeypair sponsorKeypair cb acc b))
    end.
Proof.
  intros Hload Hc1 Hc2 Hfee Hc3.
  unfold processBalance, sign, signFeeBump, bind, call, lift, console_log, emit,
    Operation_claimClaimableBalance, Operation_payment, buildFeeBumpTransaction, ret.
  cbn [world trace]. rewrite Hload, Hc1, Hc2. cbn [world trace build setTimeout
    addOperation new_TransactionBuilder tb_timeout tb_source tb_fee tb_networkPassphrase
    tb_operations app tx_source tx_fee tx_networkPassphrase tx_operations tx_timeout
    tx_signatures].
  rewrite Hfee. cbn [envelope fb_inner] in Hc3. rewrite Hc3.
  cbn [world trace fb_feeSource fb_fee fb_inner fb_networkPassphrase fb_signatures app].
  unfold envelope, submissionEvents.
  destruct (horizon_submitTransaction env _ w2) as [[result | e] w3];
    cbn [world trace]; rewrite <- !app_assoc; reflexivity.
Qed.

(** X2: when the account loads, the SDK accepts the two operations and
    the envelope, the base fee [b] is fetched and the submission returns a
    hash, the processing of the record returns normally whatever happens
    to the notification.  Its events are, in order: the found line, the
    account load, the main signature, the fee lookup, the sponsor
    signature, the sending line, the submission of the envelope built from
    the record and [b], the success line with the hash, and then at most
    one notification post, followed by one error line if the post failed. *)
Theorem accepted_submission_completes_record id account receiver mainKeypair sponsorKeypair
        cb st acc w1 b w2 result w3 :
  horizon_loadAccount env (publicKey mainKeypair) (world st) = (Return acc, w1) ->
  check_claimClaimableBalance env (cb_id cb) = None ->
  check_payment env receiver Asset_native (cb_amount cb) = None ->
  horizon_fetchBaseFee env w1 = (Return b, w2) ->
  check_feeBump env (publicKey sponsorKeypair) (feeBumpFee b)
    (fb_inner (envelope receiver mainKeypair sponsorKeypair cb acc b)) networkPassphrase
  = None ->
  horizon_submitTransaction env (envelope receiver mainKeypair sponsorKeypair cb acc b) w2
  = (Return result, w3) ->
  exists st' notif,
    processBalance env id account receiver mainKeypair sponsorKeypair cb st = (Return tt, st')
    /\ trace st'
       = trace st
         ++ submissionEvents id receiver mainKeypair sponsorKeypair cb acc b
         ++ ConsoleLog [AStr (msg_success (hash result))] :: notif
    /\ (notif = []
        \/ notif = [NetPost (telegramUrl env)
                      (telegramBody env (msg_telegram account (cb_amount cb) (hash result)))]
        \/ exists m,
             notif = [NetPost (telegramUrl env)
                        (telegramBody env (msg_telegram account (cb_amount cb) (hash result)));
                      line_post_failed m])
    /\ (truthy (TELEGRAM_BOT_TOKEN env) = false \/ truthy (TELEGRAM_CHAT_ID env) = false ->
        notif = [] /\ world st' = w3).
Proof.
  intros Hload Hc1 Hc2 Hfee Hc3 Hsub.
  rewrite (processBalance_reaches_submission id account receiver mainKeypair sponsorKeypair
             cb st Hload Hc1 Hc2 Hfee Hc3), Hsub.
  set (st3 := mkState w3 _).
  destruct (sendTelegramMessage_returns
              (msg_telegram account (cb_amount cb) (hash result)) st3)
    as (st' & notif & E & T & N).
  exists st', notif. split; [exact E | split; [| split; [exact N |]]].
  - rewrite T. unfold st3. cbn [trace]. now rewrite <- !app_assoc.
  - intros D. rewrite (sendTelegramMessage_disabled _ st3 D) in E.
    injection E as <-. split; [| reflexivity].
    rewrite <- (app_nil_r (trace st3)) in T at 1. now apply app_inv_head in T.
Qed.

(** X3: when the submission is refused with an error [e], the processing
    of the record throws [e] right after the submission: there is no
    success line, no notification and no second submission. *)
Theorem refused_submission_throws id account receiver mainKeypair sponsorKeypair
        cb st acc w1 b w2 e w3 :
  horizon_loadAccount env (publicKey mainKeypair) (world st) = (Return acc, w1) ->
  check_claimClaimableBalance env (cb_id cb) = None ->
  check_payment env receiver Asset_native (cb_amount cb) = None ->
  horizon_fetchBaseFee env w1 = (Return b, w2) ->
  check_feeBump env (publicKey sponsorKeypair) (feeBumpFee b)
    (fb_inner (envelope receiver mainKeypair sponsorKeypair cb acc b)) networkPassphrase
  = None ->
  horizon_submitTransaction env (envelope receiver mainKeypair sponsorKeypair cb acc b) w2
  = (Throw e, w3) ->
  processBalance env id account receiver mainKeypair sponsorKeypair cb st
  = (Throw e,
     mkState w3
       (trace st ++
          [ConsoleLog [AStr (msg_found id (cb_amount cb))];
           NetLoadAccount (publicKey mainKeypair);
           CryptoSign (publicKey mainKeypair);
           NetFetchBaseFee;
           CryptoSign (publicKey sponsorKeypair);
           ConsoleLog [AStr (msg_sending id)];
           NetSubmit (envelope receiver mainKeypair sponsorKeypair cb acc b)])).
Proof.
  intros Hload Hc1 Hc2 Hfee Hc3 Hsub.
  rewrite (processBalance_reaches_submission id account receiver mainKeypair sponsorKeypair
             cb st Hload Hc1 Hc2 Hfee Hc3), Hsub.
  reflexivity.
Qed.

Lemma processBalance_load_fails id account receiver mainKeypair sponsorKeypair cb st e w1 :
  horizon_loadAccount env (publicKey mainKeypair) (world st) = (Throw e, w1) ->
  processBalance env id account receiver mainKeypair sponsorKeypair cb st
  = (Throw e,
     mkState w1 (trace st ++ [ConsoleLog [AStr (msg_found id (cb_amount cb))];
                              NetLoadAccount (publicKey mainKeypair)])).
Proof.
  intros Hload.
  unfold processBalance, bind, call, console_log, emit. cbn [world trace].
  rewrite Hload. cbn [world trace]. now rewrite <- !app_assoc.
Qed.

Lemma processBalance_operation_refused id account receiver mainKeypair sponsorKeypair cb st
      acc w1 e :
  horizon_loadAccount env (publicKey mainKeypair) (world st) = (Return acc, w1) ->
  check_claimClaimableBalance env (cb_id cb) = Some e
  \/ (check_claimClaimableBalance env (cb_id cb) = None
      /\ check_payment env receiver Asset_native (cb_amount cb) = Some e) ->
  processBalance env id account receiver mainKeypair sponsorKeypair cb st
  = (Throw e,
     mkState w1 (trace st ++ [ConsoleLog [AStr (msg_found id (cb_amount cb))];
                              NetLoadAccount (publicKey mainKeypair)])).
Proof.
  intros Hload Hc.
  unfold processBalance, bind, call, lift, console_log, emit,
    Operation_claimClaimableBalance, Operation_payment.
  cbn [world trace]. rewrite Hload.
  destruct Hc as [-> | [-> ->]]; cbn [world trace]; now rewrite <- !app_assoc.
Qed.

Lemma processBalance_fee_fails id account receiver mainKeypair sponsorKeypair cb st
      acc w1 e w2 :
  horizon_loadAccount env (publicKey mainKeypair) (world st) = (Return acc, w1) ->
  check_claimClaimableBalance env (cb_id cb) = None ->
  check_payment env receiver Asset_native (cb_amount cb) = None ->
  horizon_fetchBaseFee env w1 = (Throw e, w2) ->
  processBalance env id account receiver mainKeypair sponsorKeypair cb st
  = (Throw e,
     mkState w2 (trace st ++ [ConsoleLog [AStr (msg_found id (cb_amount cb))];
                              NetLoadAccount (publicKey mainKeypair);
                              CryptoSign (publicKey mainKeypair);
                              NetFetchBaseFee])).
Proof.
  intros Hload Hc1 Hc2 Hfee.
  unfold processBalance, sign, bind, call, lift, console_log, emit,
    Operation_claimClaimableBalance, Operation_payment, ret.
  cbn [world trace]. rewrite Hload, Hc1, Hc2.
  cbn [world trace build setTimeout addOperation new_TransactionBuilder tb_timeout].
  rewrite Hfee. cbn [world trace]. now rewrite <- !app_assoc.
Qed.

(** X4: a failure before the submission stops the record there.  If the
    account cannot be loaded, nothing is signed; if the SDK refuses an
    operation (an invalid balance id, receiver address or amount), nothing
    is signed and no fee is fetched; if the fee lookup fails, only the
    inner transaction has been signed.  In none of these cases is anything
    submitted, and the error is thrown to the account's [catch]. *)
Theorem failure_before_submission id account receiver mainKeypair sponsorKeypair cb st :
  (forall e w1,
      horizon_loadAccount env (publicKey mainKeypair) (world st) = (Throw e, w1) ->
      processBalance env id account receiver mainKeypair sponsorKeypair cb st
      = (Throw e,
         mkState w1 (trace st ++ [ConsoleLog [AStr (msg_found id (cb_amount cb))];
                                  NetLoadAccount (publicKey mainKeypair)])))
  /\ (forall acc w1 e,
        horizon_loadAccount env (publicKey mainKeypair) (world st) = (Return acc, w1) ->
        check_claimClaimableBalance env (cb_id cb) = Some e
        \/ (check_claimClaimableBalance env (cb_id cb) = None
            /\ check_payment env receiver Asset_native (cb_amount cb) = Some e) ->
        processBalance env id account receiver mainKeypair sponsorKeypair cb st
        = (Throw e,
           mkState w1 (trace st ++ [ConsoleLog [AStr (msg_found id (cb_amount cb))];
                                    NetLoadAccount (publicKey mainKeypair)])))
  /\ (forall acc w1 e w2,
        horizon_loadAccount env (publicKey mainKeypair) (world st) = (Return acc, w1) ->
        check_claimClaimableBalance env (cb_id cb) = None ->
        check_payment env receiver Asset_native (cb_amount cb) = None ->
        horizon_fetchBaseFee env w1 = (Throw e, w2) ->
        processBalance env id account receiver mainKeypair sponsorKeypair cb st
        = (Throw e,
           mkState w2 (trace st ++ [ConsoleLog [AStr (msg_found id (cb_amount cb))];
                                    NetLoadAccount (publicKey mainKeypair);
                                    CryptoSign (publicKey mainKeypair);
                                    NetFetchBaseFee]))).
Proof.
  split; [| split].
  - intros e w1 Hload. now apply processBalance_load_fails.
  - intros acc w1 e Hload Hc. now apply processBalance_operation_refused with acc.
  - intros acc w1 e w2 Hload Hc1 Hc2 Hfee. now apply processBalance_fee_fails with acc w1.
Qed.

Lemma processBalance_envelope_refused id account receiver mainKeypair sponsorKeypair cb
      st acc w1 b w2 e :
  horizon_loadAccount env (publicKey mainKeypair) (world st) = (Return acc, w1) ->
  check_claimClaimableBalance env (cb_id cb) = None ->
  check_payment env receiver Asset_native (cb_amount cb) = None ->
  horizon_fetchBaseFee env w1 = (Return b, w2) ->
  check_feeBump env (publicKey sponsorKeypair) (feeBumpFee b)
    (fb_inner (envelope receiver mainKeypair sponsorKeypair cb acc b)) networkPassphrase
  = Some e ->
  processBalance env id account receiver mainKeypair sponsorKeypair cb st
  = (Throw e,
     mkState w2 (trace st ++ [ConsoleLog [AStr (msg_found id (cb_amount cb))];
                              NetLoadAccount (publicKey mainKeypair);
                              CryptoSign (publicKey mainKeypair);
                              NetFetchBaseFee])).
Proof.
  intros Hload Hc1 Hc2 Hfee Hc3.
  unfold processBalance, sign, signFeeBump, bind, call, lift, console_log, emit,
    Operation_claimClaimableBalance, Operation_payment, buildFeeBumpTransaction, ret.
  cbn [world trace]. rewrite Hload, Hc1, Hc2. cbn [world trace build setTimeout
    addOperation new_TransactionBuilder tb_timeout tb_source tb_fee tb_networkPassphrase
    tb_operations app tx_source tx_fee tx_networkPassphrase tx_operations tx_timeout
    tx_signatures].
  rewrite Hfee. cbn [envelope fb_inner] in Hc3. rewrite Hc3.
  cbn [world trace]. now rewrite <- !app_assoc.
Qed.

(** The events of one record are always an initial part of [recordEvents],
    and the found line is always the first of them. *)
Lemma processBalance_prefix id account receiver mainKeypair sponsorKeypair cb st r st' :
  processBalance env id account receiver mainKeypair sponsorKeypair cb st = (r, st') ->
  exists evs acc b h m rest,
    trace st' = trace st ++ evs
    /\ recordEvents env id account receiver mainKeypair sponsorKeypair cb acc b h m
       = evs ++ rest
    /\ exists tl, evs = ConsoleLog [AStr (msg_found id (cb_amount cb))] :: tl.
Proof.
  intros H.
  pose (acc0 := mkAccountResponse "" "").
  destruct (horizon_loadAccount env (publicKey mainKeypair) (world st))
    as [[acc | e] w1] eqn:Hload.
  2:{ rewrite (processBalance_load_fails id account receiver mainKeypair sponsorKeypair
                 cb st Hload) in H.
      injection H as <- <-. cbn [trace].
      eexists. exists acc0, 0, "", "". eexists. split; [reflexivity | split; [reflexivity | eexists; reflexivity]]. }
  destruct (check_claimClaimableBalance env (cb_id cb)) as [e |] eqn:Hc1.
  { rewrite (processBalance_operation_refused id account receiver mainKeypair
               sponsorKeypair cb st Hload (or_introl Hc1)) in H.
    injection H as <- <-. cbn [trace].
    eexists. exists acc, 0, "", "". eexists. split; [reflexivity | split; [reflexivity | eexists; reflexivity]]. }
  destruct (check_payment env receiver Asset_native (cb_amount cb)) as [e |] eqn:Hc2.
  { rewrite (processBalance_operation_refused id account receiver mainKeypair
               sponsorKeypair cb st Hload (or_intror (conj Hc1 Hc2))) in H.
    injection H as <- <-. cbn [trace].
    eexists. exists acc, 0, "", "". eexists. split; [reflexivity | split; [reflexivity | eexists; reflexivity]]. }
  destruct (horizon_fetchBaseFee env w1) as [[b | e] w2] eqn:Hfee.
  2:{ rewrite (processBalance_fee_fails id account receiver mainKeypair sponsorKeypair
                 cb st Hload Hc1 Hc2 Hfee) in H.
      injection H as <- <-. cbn [trace].
      eexists. exists acc, 0, "", "". eexists. split; [reflexivity | split; [reflexivity | eexists; reflexivity]]. }
  destruct (check_feeBump env (publicKey sponsorKeypair) (feeBumpFee b)
              (fb_inner (envelope receiver mainKeypair sponsorKeypair cb acc b))
              networkPassphrase) as [e |] eqn:Hc3.
  { rewrite (processBalance_envelope_refused id account receiver mainKeypair sponsorKeypair
               cb st Hload Hc1 Hc2 Hfee Hc3) in H.
    injection H as <- <-. cbn [trace].
    eexists. exists acc, 0, "", "". eexists. split; [reflexivity | split; [reflexivity | eexists; reflexivity]]. }
  rewrite (processBalance_reaches_submission id account receiver mainKeypair sponsorKeypair
             cb st Hload Hc1 Hc2 Hfee Hc3) in H.
  destruct (horizon_submitTransaction env _ w2) as [[result | e] w3].
  - match type of H with sendTelegramMessage _ ?msg ?s = _ =>
      destruct (sendTelegramMessage_returns msg s) as (st2 & notif & E & T & N) end.
    rewrite E in H. injection H as <- <-. rewrite T. cbn [trace].
    rewrite <- !app_assoc.
    destruct N as [-> | [-> | (m & ->)]].
    + eexists. exists acc, b, (hash result), "". eexists. split; [reflexivity | split; [reflexivity | eexists; reflexivity]].
    + eexists. exists acc, b, (hash result), "". eexists. split; [reflexivity | split; [reflexivity | eexists; reflexivity]].
    + eexists. exists acc, b, (hash result), m. exists []. split; [reflexivity |].
      split; [now rewrite app_nil_r | eexists; reflexivity].
  - injection H as <- <-. cbn [trace].
    eexists. exists acc, b, "", "". eexists. split; [reflexivity | split; [reflexivity | eexists; reflexivity]].
Qed.

Lemma count_app p a b : count p (a ++ b) = (count p a + count p b)%nat.
Proof. unfold count. now rewrite filter_app, length_app. Qed.

Ltac locate E pre :=
  repeat (destruct pre as [| ? pre]; cbn [app] in E;
          [ try discriminate E | injection E as <- E ]);
  try (exfalso; destruct pre; discriminate E).

(** X5: one record is handled in a fixed order and nothing is tried
    twice.  In every run of the loop body there is at most one submission
    and at most one notification post; a submission comes after the
    account load, the main signature, the fee lookup and the sponsor
    signature; a notification post comes after a submission and its
    success line. *)
Theorem record_steps_in_order id account receiver mainKeypair sponsorKeypair cb st r st' :
  processBalance env id account receiver mainKeypair sponsorKeypair cb st = (r, st') ->
  exists evs,
    trace st' = trace st ++ evs
    /\ (count is_submit evs <= 1)%nat
    /\ (count is_post evs <= 1)%nat
    /\ (forall pre tx post,
          evs = pre ++ NetSubmit tx :: post ->
          In (NetLoadAccount (publicKey mainKeypair)) pre
          /\ In (CryptoSign (publicKey mainKeypair)) pre
          /\ In NetFetchBaseFee pre
          /\ In (CryptoSign (publicKey sponsorKeypair)) pre)
    /\ (forall pre url body post,
          evs = pre ++ NetPost url body :: post ->
          exists tx h,
            In (NetSubmit tx) pre /\ In (ConsoleLog [AStr (msg_success h)]) pre).
Proof.
  intros H.
  destruct (processBalance_prefix id account receiver mainKeypair sponsorKeypair cb st H)
    as (evs & acc & b & h & m & rest & T & E & _).
  exists evs. split; [exact T |].
  assert (C : forall p, (count p evs
                         <= count p (recordEvents env id account receiver mainKeypair
                                       sponsorKeypair cb acc b h m))%nat).
  { intros p. rewrite E, count_app. lia. }
  split; [exact (C is_submit) | split; [exact (C is_post) | split]].
  - intros pre tx post ->.
    rewrite <- app_assoc, <- app_comm_cons in E.
    unfold recordEvents, submissionEvents in E. cbn [app] in E.
    locate E pre. simpl. auto 10.
  - intros pre url body post ->.
    rewrite <- app_assoc, <- app_comm_cons in E.
    unfold recordEvents, submissionEvents in E. cbn [app] in E.
    locate E pre. do 2 eexists. simpl. split; eauto 12.
Qed.

(** ** The keys of one account *)

Lemma yields_getPi m w :
  yields (getPiWalletAddressFromSeed env m) w ->
  fromSecret env (w_secretKey w) = keypairOf env m.
Proof.
  intros (st & st' & H).
  unfold getPiWalletAddressFromSeed, bind, emit, ret, throw in H.
  destruct (negb (validateMnemonic env m)); [discriminate |].
  injection H as <- _. reflexivity.
Qed.

Lemma BalanceEvent_uses_keys id account receiver mainKeypair sponsorKeypair cb ev :
  BalanceEvent env id account receiver mainKeypair sponsorKeypair cb ev ->
  uses_keys mainKeypair sponsorKeypair ev.
Proof. intros B. inversion B; subst; simpl; auto 10. Qed.

Lemma tryBlock_uses_keys id account :
  appends (uses_keys (keypairOf env (the (mainMnemonic account)))
                     (keypairOf env (the (sponsorMnemonic account))))
          (tryBlock env id account).
Proof.
  assert (G : forall m, appends (uses_keys (keypairOf env (the (mainMnemonic account)))
                                   (keypairOf env (the (sponsorMnemonic account))))
                                (getPiWalletAddressFromSeed env m)).
  { intros m. unfold getPiWalletAddressFromSeed.
    destruct (negb (validateMnemonic env m)); [apply appends_throw |].
    apply appends_bind; [apply appends_emit; exact I | intros _; apply appends_ret]. }
  unfold tryBlock.
  apply appends_bind_yields; [apply G | intros mainWallet Y1].
  apply appends_bind_yields; [apply G | intros sponsorWallet Y2].
  apply yields_getPi in Y1, Y2. rewrite Y1, Y2.
  apply appends_bind; [apply appends_call; simpl; auto | intros claimables].
  destruct (length claimables =? 0)%nat.
  - apply appends_emit; exact I.
  - apply appends_forEach. intros cb _.
    eapply appends_weaken; [| apply processBalance_events].
    intros ev. apply BalanceEvent_uses_keys.
Qed.

(** X6: one account uses one pair of keys throughout a run.  The claimant
    of the balance query (asked with limit 10) and the account that is
    loaded are the public key derived from the main mnemonic, which also is
    the only signer of every inner transaction; the fee source and only
    signer of every submitted envelope is the public key derived from the
    sponsor mnemonic; both layers carry the passphrase "Pi Network". *)
Theorem account_uses_its_own_keys account st r st' :
  processAccount env account st = (r, st') ->
  exists evs,
    trace st' = trace st ++ evs
    /\ forall ev, In ev evs ->
         match ev with
         | NetClaimableBalances pk limit =>
             pk = publicKey (keypairOf env (the (mainMnemonic account))) /\ limit = 10
         | NetLoadAccount pk => pk = publicKey (keypairOf env (the (mainMnemonic account)))
         | CryptoSign pk =>
             pk = publicKey (keypairOf env (the (mainMnemonic account)))
             \/ pk = publicKey (keypairOf env (the (sponsorMnemonic account)))
         | NetSubmit tx =>
             fb_feeSource tx = publicKey (keypairOf env (the (sponsorMnemonic account)))
             /\ fb_signatures tx = [publicKey (keypairOf env (the (sponsorMnemonic account)))]
             /\ tx_signatures (fb_inner tx)
                = [publicKey (keypairOf env (the (mainMnemonic account)))]
             /\ tx_networkPassphrase (fb_inner tx) = "Pi Network"%string
             /\ fb_networkPassphrase tx = "Pi Network"%string
         | _ => True
         end.
Proof.
  intros H.
  assert (A : appends (uses_keys (keypairOf env (the (mainMnemonic account)))
                                 (keypairOf env (the (sponsorMnemonic account))))
                      (processAccount env account)).
  { unfold processAccount.
    apply appends_bind; [apply appends_lift | intros id].
    apply appends_bind; [apply appends_emit; exact I | intros _].
    destruct (incomplete account).
    - apply appends_emit; exact I.
    - apply appends_try_catch; [apply tryBlock_uses_keys |].
      intros e. unfold handleError.
      destruct (is_rate_limited e); apply appends_emit; exact I. }
  destruct (appends_In st A H) as (evs & T & F).
  exists evs. split; [exact T |]. intros ev Hin. exact (F ev Hin).
Qed.

(** ** The balance query *)

Lemma tryBlock_query_fails id account st e w1 :
  validateMnemonic env (the (mainMnemonic account)) = true ->
  validateMnemonic env (the (sponsorMnemonic account)) = true ->
  horizon_claimableBalances env
    (publicKey (keypairOf env (the (mainMnemonic account)))) 10 (world st)
  = (Throw e, w1) ->
  tryBlock env id account st
  = (Throw e,
     mkState w1
       (trace st ++
          [CryptoDerive derivationPath; CryptoDerive derivationPath;
           NetClaimableBalances
             (publicKey (keypairOf env (the (mainMnemonic account)))) 10])).
Proof.
  intros V1 V2 Hq.
  unfold tryBlock, getPiWalletAddressFromSeed, bind, emit, ret, call.
  rewrite V1, V2. cbn [negb world trace w_secretKey].
  unfold keypairOf in Hq. rewrite Hq.
  unfold keypairOf. now rewrite <- !app_assoc.
Qed.

(** X7: when the ledger reports no claimable balance, [processAccount]
    derives the two keys, asks once, logs the nothing-to-do line and
    returns: no account load, no fee lookup, no signature, no submission
    and no notification. *)
Theorem empty_query_result_is_quiet account id st w1 :
  accountIdentifier account = Return id ->
  incomplete account = false ->
  validateMnemonic env (the (mainMnemonic account)) = true ->
  validateMnemonic env (the (sponsorMnemonic account)) = true ->
  horizon_claimableBalances env
    (publicKey (keypairOf env (the (mainMnemonic account)))) 10 (world st)
  = (Return [], w1) ->
  processAccount env account st
  = (Return tt,
     mkState w1
       (trace st ++
          [ConsoleLog [AStr (msg_processing id)];
           CryptoDerive derivationPath; CryptoDerive derivationPath;
           NetClaimableBalances
             (publicKey (keypairOf env (the (mainMnemonic account)))) 10;
           ConsoleLog [AStr (msg_none id)]])).
Proof.
  intros Hid Hinc V1 V2 Hq.
  unfold processAccount, bind, lift, console_log, emit, try_catch.
  rewrite Hid, Hinc.
  rewrite (tryBlock_valid env id account
             (mkState (world st) (trace st ++ [ConsoleLog [AStr (msg_processing id)]]))
             V1 V2 Hq).
  cbn [length Nat.eqb world trace]. unfold console_log, emit. cbn [world trace].
  now rewrite <- !app_assoc.
Qed.

(** X8: when the balance query itself fails, the error is caught: the run
    consists of the header line, the two derivations, the one query and one
    error line (the rate-limited line for status 429, else the error line
    with the best detail), and [processAccount] returns normally. *)
Theorem failed_query_is_logged account id st e w1 :
  accountIdentifier account = Return id ->
  incomplete account = false ->
  validateMnemonic env (the (mainMnemonic account)) = true ->
  validateMnemonic env (the (sponsorMnemonic account)) = true ->
  horizon_claimableBalances env
    (publicKey (keypairOf env (the (mainMnemonic account)))) 10 (world st)
  = (Throw e, w1) ->
  processAccount env account st
  = (Return tt,
     mkState w1
       (trace st ++
          [ConsoleLog [AStr (msg_processing id)];
           CryptoDerive derivationPath; CryptoDerive derivationPath;
           NetClaimableBalances
             (publicKey (keypairOf env (the (mainMnemonic account)))) 10;
           if is_rate_limited e then ConsoleError [AStr (msg_rate_limited id)]
           else ConsoleError [AStr (msg_error id); errorMessage e]])).
Proof.
  intros Hid Hinc V1 V2 Hq.
  unfold processAccount, bind, lift, console_log, emit, try_catch.
  rewrite Hid, Hinc.
  rewrite (tryBlock_query_fails id account
             (mkState (world st) (trace st ++ [ConsoleLog [AStr (msg_processing id)]]))
             V1 V2 Hq).
  unfold handleError, console_error, emit.
  destruct (is_rate_limited e); cbn [world trace]; now rewrite <- !app_assoc.
Qed.

(** ** Loading the configuration *)

(** X9: when [accounts.json] cannot be read or parsed, or holds an empty
    list, the bot logs one error line and stops: for whatever number of
    sweeps it would have run, no sweep starts and nothing but the file is
    touched. *)
Theorem unusable_configuration_stops_bot n st r w' :
  readAccounts env (world st) = (r, w') ->
  (exists e, r = Throw e) \/ r = Return [] ->
  main env n st
  = (Return tt,
     mkState w'
       (trace st ++
          [ConsoleLog [AStr "🚀 Memulai bot klaim Pi..."];
           ConsoleLog [AStr "Membaca konfigurasi akun dari 'accounts.json'..."];
           FsReadFile "accounts.json";
           match r with
           | Throw e =>
               ConsoleError [AStr "🔥 Gagal membaca atau mem-parsing 'accounts.json':";
                             AStr (message e)]
           | Return _ =>
               ConsoleError
                 [AStr "❌ File 'accounts.json' kosong atau tidak ditemukan. Bot berhenti."]
           end])).
Proof.
  intros Hread Hr.
  unfold main, runAllBotsContinuously, loadAccounts, bind, try_catch, call, console_log,
    console_error, emit, ret.
  cbn [world trace]. rewrite Hread.
  destruct Hr as [(e & ->) | ->]; cbn [length Nat.eqb world trace];
    now rewrite <- !app_assoc.
Qed.

(** ** Sweeps over a usable configuration *)

Lemma Subseq_app_l {A} (xs ys zs : list A) : Subseq xs ys -> Subseq xs (zs ++ ys).
Proof.
  intros H. induction zs as [| z zs IH]; simpl; [exact H | now constructor].
Qed.

Lemma forEach_processAccount_in_order accounts :
  (forall a, In a accounts -> exists id, accountIdentifier a = Return id) ->
  forall st, exists st' evs,
    forEach accounts (processAccount env) st = (Return tt, st')
    /\ trace st' = trace st ++ evs
    /\ Subseq (map headerOf accounts) evs
    /\ forall p, (forall id account ev, AccountEvent env id account ev -> p ev = false) ->
                 count p evs = 0%nat.
Proof.
  induction accounts as [| a rest IH]; intros H st; simpl.
  - exists st, []. rewrite app_nil_r. repeat split. constructor.
  - destruct (H a (or_introl eq_refl)) as (id & Hid).
    destruct (processAccount_returns env a st Hid) as (st1 & E).
    destruct (appends_In st (processAccount_events env a Hid) E) as (evs0 & T0 & F0).
    destruct (processAccount_header env a st Hid E) as (evs1 & T1).
    destruct (IH (fun b Hb => H b (or_intror Hb)) st1) as (st' & evs2 & E2 & T2 & S2 & C2).
    exists st', (evs0 ++ evs2).
    unfold bind. rewrite E. split; [exact E2 | split; [| split]].
    + now rewrite T2, T0, <- app_assoc.
    + assert (evs0 = ConsoleLog [AStr (msg_processing id)] :: evs1) as ->.
      { rewrite T0 in T1. now apply app_inv_head in T1. }
      unfold headerOf at 1. rewrite Hid. simpl. constructor. now apply Subseq_app_l.
    + intros p Hp. rewrite count_app, (C2 p Hp), Nat.add_0_r.
      unfold count. clear - F0 Hp.
      induction evs0 as [| ev evs0 IHe]; simpl; [reflexivity |].
      rewrite (Hp id a ev (F0 ev (or_introl eq_refl))).
      apply IHe. intros ev' Hin. apply F0. now right.
Qed.

(** X10: when every configured account has a name or a main mnemonic, a
    sweep runs to its end whatever fails inside the accounts: it logs the
    start line, then processes the accounts one after the other in the
    order of the configuration (their header lines appear in that order),
    then logs the end line. *)
Theorem sweep_reaches_every_account_in_order accounts st :
  (forall a, In a accounts ->
             truthy (name a) = true \/ exists m, mainMnemonic a = Some m) ->
  exists st' evs,
    cycle env accounts st = (Return tt, st')
    /\ trace st'
       = trace st ++ ConsoleLog [AStr msg_cycle_start] :: evs
                  ++ [ConsoleLog [AStr msg_cycle_end]]
    /\ Subseq (map headerOf accounts) evs
    /\ forall a, In a accounts -> In (headerOf a) evs.
Proof.
  intros H.
  assert (H' : forall a, In a accounts -> exists id, accountIdentifier a = Return id).
  { intros a Ha. unfold accountIdentifier.
    destruct (H a Ha) as [-> | (m & ->)]; eauto. destruct (truthy (name a)); eauto. }
  destruct (forEach_processAccount_in_order accounts H'
              (mkState (world st) (trace st ++ [ConsoleLog [AStr msg_cycle_start]])))
    as (st1 & evs & E & T & S & _).
  exists (mkState (world st1) (trace st1 ++ [ConsoleLog [AStr msg_cycle_end]])), evs.
  split; [| split; [| split]].
  - unfold cycle, bind, console_log, emit. now rewrite E.
  - cbn [trace] in *. rewrite T, <- !app_assoc. reflexivity.
  - exact S.
  - intros a Ha. clear - S Ha.
    assert (G : forall (xs ys : list Event), Subseq xs ys -> forall x, In x xs -> In x ys).
    { induction 1; intros z Hz; simpl in *; [contradiction | | ].
      - destruct Hz as [-> | Hz]; auto.
      - right. auto. }
    apply (G _ _ S). now apply in_map.
Qed.

Lemma AccountEvent_not_orchestrator_line id account ev s :
  s = msg_cycle_start \/ s = msg_cycle_end \/ s = msg_fatal ->
  AccountEvent env id account ev -> logs_text s ev = false.
Proof.
  intros Hs A.
  inversion A as [| | | | | mk sk cb ev' B | |]; subst;
    try (inversion B; subst);
    destruct Hs as [-> | [-> | ->]]; reflexivity.
Qed.

Lemma cycles_count accounts :
  (forall a, In a accounts -> exists id, accountIdentifier a = Return id) ->
  forall n st, exists st' evs,
    cycles env n accounts st = (Return tt, st')
    /\ trace st' = trace st ++ evs
    /\ forall s, s = msg_cycle_start \/ s = msg_cycle_end \/ s = msg_fatal ->
         count (logs_text s) evs
         = (n * count (logs_text s) [ConsoleLog [AStr msg_cycle_start];
                                     ConsoleLog [AStr msg_cycle_end]])%nat.
Proof.
  intros H. induction n as [| n IH]; intros st.
  - exists st, []. rewrite app_nil_r. repeat split.
  - destruct (forEach_processAccount_in_order accounts H
                (mkState (world st) (trace st ++ [ConsoleLog [AStr msg_cycle_start]])))
      as (st1 & evs1 & E1 & T1 & _ & C1).
    destruct (IH (mkState (world st1) (trace st1 ++ [ConsoleLog [AStr msg_cycle_end]])))
      as (st' & evs2 & E2 & T2 & C2).
    exists st', (ConsoleLog [AStr msg_cycle_start] :: evs1
                 ++ ConsoleLog [AStr msg_cycle_end] :: evs2).
    split; [| split].
    + cbn [cycles]. unfold cycle, bind, console_log, emit. rewrite E1. exact E2.
    + rewrite T2. cbn [trace] in *. rewrite T1, <- !app_assoc. reflexivity.
    + intros s Hs.
      change (ConsoleLog [AStr msg_cycle_start] :: evs1
              ++ ConsoleLog [AStr msg_cycle_end] :: evs2)
        with ([ConsoleLog [AStr msg_cycle_start]] ++ evs1
              ++ [ConsoleLog [AStr msg_cycle_end]] ++ evs2).
      rewrite !count_app, (C2 s Hs).
      rewrite (C1 (logs_text s)
                 (fun id a ev => @AccountEvent_not_orchestrator_line id a ev s Hs)).
      destruct Hs as [-> | [-> | ->]]; cbn; lia.
Qed.

(** X11: with a non-empty configuration in which every account has a name
    or a main mnemonic, the endless loop is never ended by what happens
    inside the accounts: for every [n] the first [n] sweeps are started
    and completed and the fatal line of the top-level [catch] is not
    logged. *)
Theorem usable_configuration_keeps_bot_running accounts n st w' :
  readAccounts env (world st) = (Return accounts, w') ->
  accounts <> [] ->
  (forall a, In a accounts ->
             truthy (name a) = true \/ exists m, mainMnemonic a = Some m) ->
  exists st' evs,
    main env n st = (Return tt, st')
    /\ trace st' = trace st ++ evs
    /\ count (logs_text msg_cycle_start) evs = n
    /\ count (logs_text msg_cycle_end) evs = n
    /\ count (logs_text msg_fatal) evs = 0%nat.
Proof.
  intros Hread Hne H.
  assert (H' : forall a, In a accounts -> exists id, accountIdentifier a = Return id).
  { intros a Ha. unfold accountIdentifier.
    destruct (H a Ha) as [-> | (m & ->)]; eauto. destruct (truthy (name a)); eauto. }
  set (pre := [ConsoleLog [AStr "🚀 Memulai bot klaim Pi..."];
               ConsoleLog [AStr "Membaca konfigurasi akun dari 'accounts.json'..."];
               FsReadFile "accounts.json";
               ConsoleLog [AStr ("🤖 Konfigurasi untuk "
                                 ++ Number_toString (Z.of_nat (length accounts))
                                 ++ " akun berhasil dimuat. Memulai loop super cepat.")%string]]).
  destruct (cycles_count accounts H' n (mkState w' (trace st ++ pre)))
    as (st' & evs & E & T & C).
  exists st', (pre ++ evs). split; [| split].
  - unfold main, runAllBotsContinuously, loadAccounts, bind, try_catch, call, console_log,
      console_error, emit, ret.
    cbn [world trace]. rewrite Hread.
    destruct accounts as [| a rest]; [congruence |].
    cbn [length Nat.eqb world trace].
    unfold pre in E. cbn [length] in E. rewrite <- !app_assoc. cbn [app].
    now rewrite E.
  - rewrite T. cbn [trace]. now rewrite app_assoc.
  - rewrite !count_app, !C by auto.
    repeat split; cbn; lia.
Qed.

(** ** How much one account can cause *)


Lemma processBalance_counts id account receiver mainKeypair sponsorKeypair cb st r st' :
  processBalance env id account receiver mainKeypair sponsorKeypair cb st = (r, st') ->
  exists evs,
    trace st' = trace st ++ evs
    /\ (count is_submit evs <= 1)%nat
    /\ (count is_post evs <= 1)%nat
    /\ (count is_query evs <= 0)%nat.
Proof.
  intros H.
  destruct (processBalance_prefix id account receiver mainKeypair sponsorKeypair cb st H)
    as (evs & acc & b & h & m & rest & T & E & _).
  exists evs. split; [exact T |].
  assert (C : forall p, (count p evs
                         <= count p (recordEvents env id account receiver mainKeypair
                                       sponsorKeypair cb acc b h m))%nat).
  { intros p. rewrite E, count_app. lia. }
  split; [exact (C is_submit) | split; [exact (C is_post) | exact (C is_query)]].
Qed.



(** ** The loop after an accepted record *)

(** X13: an accepted submission lets the loop go on.  When the record
    [cb] is submitted successfully, its processing returns normally, also
    when the notification fails, and the loop turns to the next record:
    the found line of that record is the next thing logged. *)
Theorem accepted_record_lets_loop_continue id account receiver mainKeypair sponsorKeypair
        cb next rest st acc w1 b w2 result w3 r stF :
  horizon_loadAccount env (publicKey mainKeypair) (world st) = (Return acc, w1) ->
  check_claimClaimableBalance env (cb_id cb) = None ->
  check_payment env receiver Asset_native (cb_amount cb) = None ->
  horizon_fetchBaseFee env w1 = (Return b, w2) ->
  check_feeBump env (publicKey sponsorKeypair) (feeBumpFee b)
    (fb_inner (envelope receiver mainKeypair sponsorKeypair cb acc b)) networkPassphrase
  = None ->
  horizon_submitTransaction env (envelope receiver mainKeypair sponsorKeypair cb acc b) w2
  = (Return result, w3) ->
  forEach (cb :: next :: rest)
          (processBalance env id account receiver mainKeypair sponsorKeypair) st
  = (r, stF) ->
  exists st1 evs,
    processBalance env id account receiver mainKeypair sponsorKeypair cb st = (Return tt, st1)
    /\ trace stF = trace st1 ++ ConsoleLog [AStr (msg_found id (cb_amount next))] :: evs.
Proof.
  intros Hload Hc1 Hc2 Hfee Hc3 Hsub H.
  assert (E : exists st1, processBalance env id account receiver mainKeypair sponsorKeypair
                            cb st = (Return tt, st1)).
  { rewrite (processBalance_reaches_submission id account receiver mainKeypair
               sponsorKeypair cb st Hload Hc1 Hc2 Hfee Hc3), Hsub.
    match goal with |- exists _, sendTelegramMessage _ ?msg ?s = _ =>
      destruct (sendTelegramMessage_returns msg s) as (st1 & _ & E & _) end.
    eauto. }
  destruct E as (st1 & E). exists st1.
  cbn [forEach] in H. unfold bind at 1 in H. rewrite E in H. unfold bind at 1 in H.
  destruct (processBalance env id account receiver mainKeypair sponsorKeypair next st1)
    as [r2 st2] eqn:E2.
  destruct (processBalance_prefix id account receiver mainKeypair sponsorKeypair next st1 E2)
    as (evs2 & _ & _ & _ & _ & _ & T2 & _ & (tl & ->)).
  destruct r2 as [[] | e].
  - assert (A : appends (fun _ => True)
                  (forEach rest (processBalance env id account receiver mainKeypair
                                   sponsorKeypair))).
    { apply appends_forEach. intros x _.
      eapply appends_weaken; [| apply processBalance_events]. auto. }
    destruct (appends_In st2 A H) as (evs3 & T3 & _).
    exists (tl ++ evs3). split; [exact E |].
    now rewrite T3, T2, <- app_assoc.
  - injection H as <- <-. exists tl. split; [exact E | exact T2].
Qed.

(** ** An unconfigured notifier *)

Ltac chain :=
  repeat first
    [ progress cbv zeta
    | apply appends_bind; [| intros ?]
    | apply appends_try_catch; [| intros ?]
    | apply appends_forEach; intros ? _
    | match goal with |- appends _ (if ?c then _ else _) => destruct c end
    | match goal with |- appends _ (match ?x with _ => _ end) => destruct x end ];
  try solve [ apply appends_emit; reflexivity
            | apply appends_call; reflexivity
            | apply appends_lift
            | apply appends_ret
            | apply appends_throw ].

Lemma processAccount_no_post account :
  truthy (TELEGRAM_BOT_TOKEN env) = false \/ truthy (TELEGRAM_CHAT_ID env) = false ->
  appends (fun ev => is_post ev = false) (processAccount env account).
Proof.
  intros D.
  assert (S : forall msg, appends (fun ev => is_post ev = false)
                                  (sendTelegramMessage env msg)).
  { intros msg st r st' H. rewrite (sendTelegramMessage_disabled msg st D) in H.
    injection H as <- <-. exists []. now rewrite app_nil_r. }
  unfold processAccount, tryBlock, getPiWalletAddressFromSeed, handleError. chain.
  all: unfold processBalance, sign, signFeeBump; chain; apply S.
Qed.

(** X14: without a bot token or without a chat id the bot never contacts
    the messaging API: whatever the configuration file and the ledger
    answer, and for any number of sweeps, no post is made. *)
Theorem unconfigured_notifier_never_posts n st r st' :
  truthy (TELEGRAM_BOT_TOKEN env) = false \/ truthy (TELEGRAM_CHAT_ID env) = false ->
  main env n st = (r, st') ->
  exists evs, trace st' = trace st ++ evs /\ count is_post evs = 0%nat.
Proof.
  intros D H.
  assert (C : forall accounts k, appends (fun ev => is_post ev = false)
                                         (cycles env k accounts)).
  { intros accounts k. induction k as [| k IH]; cbn [cycles]; [apply appends_ret |].
    apply appends_bind; [| intros _; exact IH].
    unfold cycle.
    apply appends_bind; [apply appends_emit; reflexivity | intros _].
    apply appends_bind; [| intros _; apply appends_emit; reflexivity].
    apply appends_forEach. intros a _. now apply processAccount_no_post. }
  assert (A : appends (fun ev => is_post ev = false) (main env n)).
  { unfold main, runAllBotsContinuously, loadAccounts. chain. apply C. }
  destruct (A _ _ _ H) as (evs & T & F).
  exists evs. split; [exact T |].
  unfold count. clear - F. induction F as [| ev evs Hev _ IH]; simpl; [reflexivity |].
  now rewrite Hev.
Qed.

(** ** The identifier in the log *)

(** X15: every run of [processAccount] talks about one identifier, the one
    computed on line 50: the header line comes first and every other line
    it logs is one of the program's line templates instantiated with that
    identifier.  For an account with a name the identifier is the name, so
    the main mnemonic does not serve as identifier. *)
Theorem log_lines_carry_one_identifier account id st r st' :
  accountIdentifier account = Return id ->
  processAccount env account st = (r, st') ->
  (truthy (name account) = true -> name account = Some id)
  /\ exists evs,
       trace st' = trace st ++ ConsoleLog [AStr (msg_processing id)] :: evs
       /\ forall ev, In ev evs -> is_log ev = true -> LogLine id ev.
Proof.
  intros Hid H. split.
  - intros Hn. unfold accountIdentifier in Hid. rewrite Hn in Hid.
    destruct (name account); simpl in *; congruence.
  - destruct (appends_In st (processAccount_events env account Hid) H) as (evs0 & T0 & F0).
    destruct (processAccount_header env account st Hid H) as (evs & T).
    assert (evs0 = ConsoleLog [AStr (msg_processing id)] :: evs) as ->.
    { rewrite T0 in T. now apply app_inv_head in T. }
    exists evs. split; [exact T |].
    intros ev Hin L. apply AccountEvent_LogLine with World env account; auto.
    apply F0. now right.
Qed.

(** ** The transactions that are built *)

(** Every submission of a run of [processAccount] is made by the loop
    body for a record that the balance query of this run returned. *)
Lemma processAccount_submits_from_loop account id st r st' :
  accountIdentifier account = Return id ->
  processAccount env account st = (r, st') ->
  exists evs,
    trace st' = trace st ++ evs
    /\ forall tx, In (NetSubmit tx) evs ->
         exists recs w1 cb,
           horizon_claimableBalances env
             (publicKey (keypairOf env (the (mainMnemonic account)))) 10 (world st)
           = (Return recs, w1)
           /\ In cb recs
           /\ BalanceEvent env id account (the (receiverAddress account))
                (keypairOf env (the (mainMnemonic account)))
                (keypairOf env (the (sponsorMnemonic account))) cb (NetSubmit tx).
Proof.
  intros Hid H.
  assert (Q : forall evs, trace st' = trace st ++ evs ->
                Forall (fun ev => is_submit ev = false) evs ->
                exists evs,
                  trace st' = trace st ++ evs
                  /\ forall tx, In (NetSubmit tx) evs ->
                       exists recs w1 cb,
                         horizon_claimableBalances env
                           (publicKey (keypairOf env (the (mainMnemonic account)))) 10
                           (world st)
                         = (Return recs, w1)
                         /\ In cb recs
                         /\ BalanceEvent env id account (the (receiverAddress account))
                              (keypairOf env (the (mainMnemonic account)))
                              (keypairOf env (the (sponsorMnemonic account))) cb
                              (NetSubmit tx)).
  { intros evs T F. exists evs. split; [exact T |]. intros tx Hin.
    rewrite Forall_forall in F. specialize (F _ Hin). discriminate. }
  destruct (incomplete account) eqn:Hinc.
  { unfold processAccount, bind, lift, console_log, console_error, emit in H.
    rewrite Hid, Hinc in H. injection H as <- <-.
    eapply Q; [cbn [trace]; rewrite <- app_assoc; reflexivity | repeat constructor]. }
  destruct (validateMnemonic env (the (mainMnemonic account))) eqn:V1.
  2:{ rewrite (processAccount_main_invalid env account st Hid Hinc V1) in H.
      injection H as <- <-.
      eapply Q; [unfold after; cbn [trace]; reflexivity | repeat constructor]. }
  destruct (validateMnemonic env (the (sponsorMnemonic account))) eqn:V2.
  2:{ rewrite (processAccount_sponsor_invalid env account st Hid Hinc V1 V2) in H.
      injection H as <- <-.
      eapply Q; [unfold after; cbn [trace]; reflexivity | repeat constructor]. }
  unfold processAccount, bind, lift, console_log, emit, try_catch in H.
  rewrite Hid, Hinc in H.
  destruct (horizon_claimableBalances env
              (publicKey (keypairOf env (the (mainMnemonic account)))) 10 (world st))
    as [[recs | e] w1] eqn:Hq.
  2:{ rewrite (tryBlock_query_fails id account
                 (mkState (world st) (trace st ++ [ConsoleLog [AStr (msg_processing id)]]))
                 V1 V2 Hq) in H.
      unfold handleError, console_error, emit in H.
      destruct (is_rate_limited e); injection H as <- <-;
        (eapply Q; [cbn [trace]; rewrite <- !app_assoc; reflexivity | repeat constructor]). }
  rewrite (tryBlock_valid env id account
             (mkState (world st) (trace st ++ [ConsoleLog [AStr (msg_processing id)]]))
             V1 V2 Hq) in H.
  cbn [world trace] in H. rewrite <- app_assoc in H. cbn [app] in H.
  set (st2 := mkState w1 _) in H.
  set (P := fun ev => forall tx, ev = NetSubmit tx ->
              exists cb, In cb recs
                /\ BalanceEvent env id account (the (receiverAddress account))
                     (keypairOf env (the (mainMnemonic account)))
                     (keypairOf env (the (sponsorMnemonic account))) cb (NetSubmit tx)).
  assert (A : appends P
                (try_catch
                   (if (length recs =? 0)%nat then console_log [AStr (msg_none id)]
                    else forEach recs
                           (processBalance env id account (the (receiverAddress account))
                              (keypairOf env (the (mainMnemonic account)))
                              (keypairOf env (the (sponsorMnemonic account)))))
                   (handleError id))).
  { apply appends_try_catch.
    - destruct (length recs =? 0)%nat.
      + apply appends_emit. intros tx [=].
      + apply appends_forEach. intros cb Hcb.
        eapply appends_weaken; [| apply processBalance_events].
        intros ev B tx ->. exists cb. auto.
    - intros e. unfold handleError.
      destruct (is_rate_limited e); apply appends_emit; intros tx [=]. }
  destruct (appends_In st2 A H) as (evsL & TL & FL).
  exists ([ConsoleLog [AStr (msg_processing id)]; CryptoDerive derivationPath;
           CryptoDerive derivationPath;
           NetClaimableBalances
             (publicKey (keypairOf env (the (mainMnemonic account)))) 10] ++ evsL).
  split.
  - rewrite TL. unfold st2. cbn [trace]. now rewrite <- !app_assoc.
  - intros tx Hin. apply in_app_or in Hin. destruct Hin as [Hin | Hin].
    + simpl in Hin. repeat (destruct Hin as [Hin | Hin]; [discriminate |]). contradiction.
    + destruct (FL _ Hin tx eq_refl) as (cb & Hcb & B).
      exists recs, w1, cb. auto.
Qed.

(** C5: the inner transaction that the loop body builds for the record
    [cb] has fee "0", the two operations claim([cb.id]) then
    payment(receiver, native asset, [cb.amount]) in that order, and a
    timeout of 60 seconds.  Once the account is loaded, the operations are
    accepted and the base fee is fetched, this transaction, signed by the
    main key, is what the SDK is asked to wrap: if the SDK accepts it, the
    envelope that is submitted wraps exactly it, and if the SDK refuses
    it, the refusal is thrown and nothing is submitted.  No run submits
    an envelope around any other inner transaction, and every envelope
    that [processAccount] submits is built in this way for a record that
    the balance query returned. *)
Theorem inner_transaction_shape id account receiver mainKeypair sponsorKeypair cb :
  (forall mainAccount op1 op2,
      Operation_claimClaimableBalance env (cb_id cb) = Return op1 ->
      Operation_payment env receiver Asset_native (cb_amount cb) = Return op2 ->
      build (setTimeout 60
               (addOperation op2
                  (addOperation op1
                     (new_TransactionBuilder mainAccount "0" networkPassphrase))))
      = Return (mkTransaction mainAccount "0" networkPassphrase
                  [ClaimClaimableBalance (cb_id cb);
                   Payment receiver Asset_native (cb_amount cb)] 60 []))
  /\ (forall st acc w1 b w2,
        horizon_loadAccount env (publicKey mainKeypair) (world st) = (Return acc, w1) ->
        check_claimClaimableBalance env (cb_id cb) = None ->
        check_payment env receiver Asset_native (cb_amount cb) = None ->
        horizon_fetchBaseFee env w1 = (Return b, w2) ->
        (check_feeBump env (publicKey sponsorKeypair) (feeBumpFee b)
           (mkTransaction acc "0" "Pi Network"
              [ClaimClaimableBalance (cb_id cb);
               Payment receiver Asset_native (cb_amount cb)] 60 [publicKey mainKeypair])
           "Pi Network"
         = None ->
         exists tx r st' evs,
           processBalance env id account receiver mainKeypair sponsorKeypair cb st = (r, st')
           /\ trace st'
              = trace st ++
                  [ConsoleLog [AStr (msg_found id (cb_amount cb))];
                   NetLoadAccount (publicKey mainKeypair);
                   CryptoSign (publicKey mainKeypair);
                   NetFetchBaseFee;
                   CryptoSign (publicKey sponsorKeypair);
                   ConsoleLog [AStr (msg_sending id)];
                   NetSubmit tx] ++ evs
           /\ fb_inner tx
              = mkTransaction acc "0" "Pi Network"
                  [ClaimClaimableBalance (cb_id cb);
                   Payment receiver Asset_native (cb_amount cb)] 60
                  [publicKey mainKeypair])
        /\ (forall e,
              check_feeBump env (publicKey sponsorKeypair) (feeBumpFee b)
                (mkTransaction acc "0" "Pi Network"
                   [ClaimClaimableBalance (cb_id cb);
                    Payment receiver Asset_native (cb_amount cb)] 60
                   [publicKey mainKeypair])
                "Pi Network"
              = Some e ->
              processBalance env id account receiver mainKeypair sponsorKeypair cb st
              = (Throw e,
                 mkState w2
                   (trace st ++
                      [ConsoleLog [AStr (msg_found id (cb_amount cb))];
                       NetLoadAccount (publicKey mainKeypair);
                       CryptoSign (publicKey mainKeypair);
                       NetFetchBaseFee]))))
  /\ (forall st r st',
        processBalance env id account receiver mainKeypair sponsorKeypair cb st = (r, st') ->
        exists evs, trace st' = trace st ++ evs
          /\ (count is_submit evs <= 1)%nat
          /\ forall tx, In (NetSubmit tx) evs ->
               tx_operations (fb_inner tx)
               = [ClaimClaimableBalance (cb_id cb);
                  Payment receiver Asset_native (cb_amount cb)]
               /\ tx_fee (fb_inner tx) = "0"%string
               /\ tx_timeout (fb_inner tx) = 60)
  /\ (forall st r st',
        accountIdentifier account = Return id ->
        processAccount env account st = (r, st') ->
        exists evs, trace st' = trace st ++ evs
          /\ forall tx, In (NetSubmit tx) evs ->
               exists recs w1 cb',
                 horizon_claimableBalances env
                   (publicKey (keypairOf env (the (mainMnemonic account)))) 10 (world st)
                 = (Return recs, w1)
                 /\ In cb' recs
                 /\ tx_operations (fb_inner tx)
                    = [ClaimClaimableBalance (cb_id cb');
                       Payment (the (receiverAddress account)) Asset_native (cb_amount cb')]
                 /\ tx_fee (fb_inner tx) = "0"%string
                 /\ tx_timeout (fb_inner tx) = 60).
Proof.
  split; [| split; [| split]].
  - intros mainAccount op1 op2 H1 H2.
    unfold Operation_claimClaimableBalance in H1. unfold Operation_payment in H2.
    destruct (check_claimClaimableBalance env (cb_id cb)); [discriminate |].
    destruct (check_payment env receiver Asset_native (cb_amount cb)); [discriminate |].
    injection H1 as <-. injection H2 as <-. reflexivity.
  - intros st acc w1 b w2 Hload Hc1 Hc2 Hfee. split.
    + intros Hc3.
      pose proof (processBalance_reaches_submission id account receiver mainKeypair
                    sponsorKeypair cb st Hload Hc1 Hc2 Hfee Hc3) as R.
      exists (envelope receiver mainKeypair sponsorKeypair cb acc b).
      destruct (horizon_submitTransaction env _ w2) as [[result | e] w3].
      * match type of R with _ = sendTelegramMessage _ ?msg ?s =>
          destruct (sendTelegramMessage_returns msg s) as (st' & notif & E & T & _) end.
        rewrite E in R. exists (Return tt), st', (ConsoleLog [AStr (msg_success (hash result))]
                                                  :: notif).
        split; [exact R | split; [| reflexivity]].
        rewrite T. cbn [trace]. unfold submissionEvents. now rewrite <- !app_assoc.
      * do 2 eexists. exists []. split; [exact R | split; [| reflexivity]].
        cbn [trace]. unfold submissionEvents. now rewrite app_nil_r.
    + intros e Hc3.
      exact (processBalance_envelope_refused id account receiver mainKeypair sponsorKeypair
               cb st Hload Hc1 Hc2 Hfee Hc3).
  - intros st r st' H.
    destruct (processBalance_counts id account receiver mainKeypair sponsorKeypair cb st H)
      as (evs & T & C & _).
    destruct (appends_In st (processBalance_events env id account receiver mainKeypair
                               sponsorKeypair cb) H) as (evs' & T' & F).
    assert (evs' = evs) as -> by (rewrite T in T'; now apply app_inv_head in T').
    exists evs. split; [exact T | split; [exact C |]]. intros tx Hin.
    specialize (F _ Hin). inversion F; subst. simpl. auto.
  - intros st r st' Hid H.
    destruct (processAccount_submits_from_loop account st Hid H) as (evs & T & F).
    exists evs. split; [exact T |]. intros tx Hin.
    destruct (F tx Hin) as (recs & w1 & cb' & Hq & Hcb & B).
    exists recs, w1, cb'. split; [exact Hq | split; [exact Hcb |]].
    inversion B; subst. simpl. auto.
Qed.

(** ** The fee of the fee bump *)

Lemma declaredFee_exact b :
  Z.abs (b * 120) <= 2 ^ 53 ->
  declaredFee (feeBumpFee b) 2 = Number_toString (360 * b)
  /\ decimal_value (declaredFee (feeBumpFee b) 2) = Some (360 * b).
Proof.
  intros Hb. destruct (feeBumpFee_exact b Hb) as [_ D].
  unfold declaredFee. rewrite D.
  replace (120 * b * (Z.of_nat 2 + 1)) with (360 * b) by lia.
  split; [reflexivity | apply decimal_value_toString].
Qed.

(** C4 (amended): for an integer base fee [b] with [|120 * b| <= 2^53],
    what line 99 passes to the fee-bump builder as the fee per operation
    is the decimal numeral of exactly [120 * b].  Once the account is
    loaded, the operations are accepted, [b] is fetched and the SDK accepts
    that fee for the inner transaction, the envelope is built and
    submitted, and the fee it declares is that amount for each of the two
    inner operations and for the fee bump itself: exactly [360 * b].  In
    every run, the fee declared by a submitted envelope is computed in this
    way from a base fee that the fee lookup returned. *)
Theorem fee_bump_fee_from_base_fee id account receiver mainKeypair sponsorKeypair cb
        st acc w1 b w2 :
  Z.abs (b * 120) <= 2 ^ 53 ->
  horizon_loadAccount env (publicKey mainKeypair) (world st) = (Return acc, w1) ->
  check_claimClaimableBalance env (cb_id cb) = None ->
  check_payment env receiver Asset_native (cb_amount cb) = None ->
  horizon_fetchBaseFee env w1 = (Return b, w2) ->
  check_feeBump env (publicKey sponsorKeypair) (Number_toString (120 * b))
    (mkTransaction acc "0" "Pi Network"
       [ClaimClaimableBalance (cb_id cb); Payment receiver Asset_native (cb_amount cb)]
       60 [publicKey mainKeypair])
    "Pi Network"
  = None ->
  feeBumpFee b = Number_toString (120 * b)
  /\ decimal_value (feeBumpFee b) = Some (120 * b)
  /\ (exists tx r st' evs,
         processBalance env id account receiver mainKeypair sponsorKeypair cb st = (r, st')
         /\ trace st'
            = trace st ++
                [ConsoleLog [AStr (msg_found id (cb_amount cb))];
                 NetLoadAccount (publicKey mainKeypair);
                 CryptoSign (publicKey mainKeypair);
                 NetFetchBaseFee;
                 CryptoSign (publicKey sponsorKeypair);
                 ConsoleLog [AStr (msg_sending id)];
                 NetSubmit tx] ++ evs
         /\ fb_fee tx = Number_toString (360 * b)
         /\ decimal_value (fb_fee tx) = Some (360 * b))
  /\ (forall s r s',
        processBalance env id account receiver mainKeypair sponsorKeypair cb s = (r, s') ->
        exists evs,
          trace s' = trace s ++ evs
          /\ forall tx, In (NetSubmit tx) evs ->
               exists b' w w',
                 horizon_fetchBaseFee env w = (Return b', w')
                 /\ (Z.abs (b' * 120) <= 2 ^ 53 ->
                     decimal_value (fb_fee tx) = Some (360 * b'))).
Proof.
  intros Hb Hload Hc1 Hc2 Hfee Hc3.
  destruct (feeBumpFee_exact b Hb) as [E D].
  destruct (declaredFee_exact b Hb) as [E3 D3].
  split; [exact E | split; [exact D | split]].
  - rewrite <- E in Hc3.
    pose proof (processBalance_reaches_submission id account receiver mainKeypair
                  sponsorKeypair cb st Hload Hc1 Hc2 Hfee Hc3) as R.
    exists (envelope receiver mainKeypair sponsorKeypair cb acc b).
    destruct (horizon_submitTransaction env _ w2) as [[result | e] w3].
    + match type of R with _ = sendTelegramMessage _ ?msg ?s =>
        destruct (sendTelegramMessage_returns msg s) as (st' & notif & E' & T & _) end.
      rewrite E' in R.
      exists (Return tt), st', (ConsoleLog [AStr (msg_success (hash result))] :: notif).
      split; [exact R | split; [| split; [exact E3 | exact D3]]].
      rewrite T. cbn [trace]. unfold submissionEvents. now rewrite <- !app_assoc.
    + do 2 eexists. exists [].
      split; [exact R | split; [| split; [exact E3 | exact D3]]].
      cbn [trace]. unfold submissionEvents. now rewrite app_nil_r.
  - intros s r s' H.
    destruct (appends_In s (processBalance_events env id account receiver mainKeypair
                              sponsorKeypair cb) H) as (evs & T & F).
    exists evs. split; [exact T |]. intros tx Hin.
    specialize (F _ Hin). inversion F as [| | | | | | mainAccount b' w w' Hfee' | | |]; subst.
    exists b', w, w'. split; [exact Hfee' |].
    intros Hb'. apply (declaredFee_exact b' Hb').
Qed.

End Further.

(** * Concrete runs for the further properties *)

Section FurtherRuns.

Local Open Scope list_scope.

Local Abbreviation accA := (mkAccountResponse "G-ok main a" "7").
Local Abbreviation okHash := (mkSubmitResult "0123456789abcdefHASH").

Lemma notifier_never_throws_witness :
  exists st',
    sendTelegramMessage envNotifyFails "hello" st0 = (Return tt, st')
    /\ trace st'
       = [NetPost "https://api.telegram.org/botTOKEN/sendMessage"
            (mkTelegramBody "42" "hello" "Markdown");
          ConsoleError [AStr "⚠️ Gagal kirim ke Telegram:"; AStr "Network Error"]].
Proof.
  destruct (@notifier_never_throws nat envNotifyFails "hello" st0) as (st' & E & _ & P).
  exists st'. split; [exact E |].
  destruct (P eq_refl eq_refl) as (_ & _ & T).
  exact (T (Throw networkDown) 0%nat eq_refl).
Defined.

Lemma accepted_submission_completes_record_witness :
  exists st',
    processBalance envNotifyFails "A" accountA "GRECEIVER" keyA keyS bal1 loopEntryA
    = (Return tt, st').
Proof.
  destruct (@accepted_submission_completes_record nat envNotifyFails "A" accountA
              "GRECEIVER" keyA keyS bal1 loopEntryA accA 0%nat 100 0%nat okHash 1%nat
              eq_refl eq_refl eq_refl eq_refl eq_refl eq_refl)
    as (st' & notif & E & _).
  exists st'. exact E.
Defined.

Lemma refused_submission_throws_witness :
  fst (processBalance envSecondRejected "A" accountA "GRECEIVER" keyA keyS bal2
         (mkState 1%nat []))
  = Throw txFailed.
Proof.
  rewrite (@refused_submission_throws nat envSecondRejected "A" accountA "GRECEIVER"
             keyA keyS bal2 (mkState 1%nat []) accA 1%nat 100 1%nat txFailed 2%nat
             eq_refl eq_refl eq_refl eq_refl eq_refl eq_refl).
  reflexivity.
Defined.

Lemma failure_before_submission_witness :
  processBalance envNotifyFails "D" accountBadReceiver "not an address" keyA keyS bal1 st0
  = (Throw (new_Error "destination is invalid"),
     mkState 0%nat [ConsoleLog [AStr (msg_found "D" "10.5")]; NetLoadAccount "G-ok main a"]).
Proof.
  apply (proj1 (proj2 (@failure_before_submission nat envNotifyFails "D" accountBadReceiver
                         "not an address" keyA keyS bal1 st0))
           accA 0%nat (new_Error "destination is invalid") eq_refl).
  right. split; reflexivity.
Defined.

Lemma record_steps_in_order_witness :
  exists evs,
    trace (snd (processBalance envNotifyFails "A" accountA "GRECEIVER" keyA keyS bal1
                  loopEntryA))
    = trace loopEntryA ++ evs
    /\ (count is_submit evs <= 1)%nat.
Proof.
  destruct (@record_steps_in_order nat envNotifyFails "A" accountA "GRECEIVER" keyA keyS bal1
              loopEntryA
              (fst (processBalance envNotifyFails "A" accountA "GRECEIVER" keyA keyS bal1
                      loopEntryA))
              (snd (processBalance envNotifyFails "A" accountA "GRECEIVER" keyA keyS bal1
                      loopEntryA))
              eq_refl)
    as (evs & T & C & _).
  exists evs. split; [exact T | exact C].
Defined.

Lemma account_uses_its_own_keys_witness :
  exists evs,
    trace (snd (processAccount envNotifyFails accountA st0)) = trace st0 ++ evs
    /\ forall pk, In (NetLoadAccount pk) evs -> pk = "G-ok main a"%string.
Proof.
  assert (R : processAccount envNotifyFails accountA st0
              = (fst (processAccount envNotifyFails accountA st0),
                 snd (processAccount envNotifyFails accountA st0)))
    by (vm_compute; reflexivity).
  destruct (@account_uses_its_own_keys nat envNotifyFails accountA st0 _ _ R)
    as (evs & T & F).
  exists evs. split; [exact T |]. intros pk Hin. exact (F _ Hin).
Defined.

Lemma empty_query_result_is_quiet_witness :
  processAccount envNoBalances accountA st0
  = (Return tt,
     mkState 0%nat
       [ConsoleLog [AStr (msg_processing "A")];
        CryptoDerive derivationPath; CryptoDerive derivationPath;
        NetClaimableBalances "G-ok main a" 10;
        ConsoleLog [AStr (msg_none "A")]]).
Proof.
  apply (@empty_query_result_is_quiet nat envNoBalances accountA "A" st0 0%nat);
    reflexivity.
Defined.

Lemma failed_query_is_logged_witness :
  processAccount envQueryDown accountA st0
  = (Return tt,
     mkState 0%nat
       [ConsoleLog [AStr (msg_processing "A")];
        CryptoDerive derivationPath; CryptoDerive derivationPath;
        NetClaimableBalances "G-ok main a" 10;
        ConsoleError [AStr (msg_error "A"); AStr "Network Error"]]).
Proof.
  apply (@failed_query_is_logged nat envQueryDown accountA "A" st0 networkDown 0%nat);
    reflexivity.
Defined.

Lemma unusable_configuration_stops_bot_witness :
  existsb is_network (trace (snd (main envNoConfig 5 st0))) = false
  /\ main envEmptyConfig 5 st0
     = (Return tt,
        mkState 0%nat
          [ConsoleLog [AStr "🚀 Memulai bot klaim Pi..."];
           ConsoleLog [AStr "Membaca konfigurasi akun dari 'accounts.json'..."];
           FsReadFile "accounts.json";
           ConsoleError
             [AStr "❌ File 'accounts.json' kosong atau tidak ditemukan. Bot berhenti."]]).
Proof.
  split.
  - rewrite (@unusable_configuration_stops_bot nat envNoConfig 5 st0 _ 0%nat eq_refl
               (or_introl (ex_intro _ _ eq_refl))).
    reflexivity.
  - apply (@unusable_configuration_stops_bot nat envEmptyConfig 5 st0 (Return []) 0%nat
             eq_refl (or_intror eq_refl)).
Defined.

Lemma sweep_reaches_every_account_in_order_witness :
  exists st' evs,
    cycle envNotifyFails [accountA; accountUnnamed; accountB] st0 = (Return tt, st')
    /\ Subseq [ConsoleLog [AStr (msg_processing "A")];
               ConsoleLog [AStr (msg_processing "ok abandon abil...")];
               ConsoleLog [AStr (msg_processing "B")]] evs.
Proof.
  destruct (@sweep_reaches_every_account_in_order nat envNotifyFails
              [accountA; accountUnnamed; accountB] st0)
    as (st' & evs & E & _ & S & _).
  - intros a [<- | [<- | [<- | []]]];
      [left; reflexivity | right; eexists; reflexivity | left; reflexivity].
  - exists st', evs. split; [exact E | exact S].
Defined.

Lemma usable_configuration_keeps_bot_running_witness :
  exists st' evs,
    main envNotifyFails 2 st0 = (Return tt, st')
    /\ trace st' = trace st0 ++ evs
    /\ count (logs_text msg_cycle_end) evs = 2%nat
    /\ count (logs_text msg_fatal) evs = 0%nat.
Proof.
  destruct (@usable_configuration_keeps_bot_running nat envNotifyFails
              [accountA; accountUnnamed; accountB] 2 st0 0%nat eq_refl)
    as (st' & evs & E & T & _ & C2 & C3).
  - discriminate.
  - intros a [<- | [<- | [<- | []]]];
      [left; reflexivity | right; eexists; reflexivity | left; reflexivity].
  - exists st', evs. auto.
Defined.


Lemma accepted_record_lets_loop_continue_witness :
  exists st1 evs,
    processBalance envNotifyFails "A" accountA "GRECEIVER" keyA keyS bal1 loopEntryA
    = (Return tt, st1)
    /\ trace (snd (forEach [bal1; bal2]
                     (processBalance envNotifyFails "A" accountA "GRECEIVER" keyA keyS)
                     loopEntryA))
       = trace st1 ++ ConsoleLog [AStr (msg_found "A" "3")] :: evs.
Proof.
  apply (@accepted_record_lets_loop_continue nat envNotifyFails "A" accountA "GRECEIVER"
           keyA keyS bal1 bal2 [] loopEntryA accA 0%nat 100 0%nat okHash 1%nat
           (fst (forEach [bal1; bal2]
                   (processBalance envNotifyFails "A" accountA "GRECEIVER" keyA keyS)
                   loopEntryA)));
    vm_compute; reflexivity.
Defined.

Lemma unconfigured_notifier_never_posts_witness :
  exists evs,
    trace (snd (main envAllOk 2 st0)) = trace st0 ++ evs
    /\ count is_post evs = 0%nat.
Proof.
  apply (@unconfigured_notifier_never_posts nat envAllOk 2 st0
           (fst (main envAllOk 2 st0))).
  - left; reflexivity.
  - vm_compute; reflexivity.
Defined.

Lemma log_lines_carry_one_identifier_witness :
  exists evs,
    trace (snd (processAccount envSecondRejected accountA st0))
    = trace st0 ++ ConsoleLog [AStr (msg_processing "A")] :: evs
    /\ forall ev, In ev evs -> is_log ev = true -> LogLine "A" ev.
Proof.
  apply (@log_lines_carry_one_identifier nat envSecondRejected accountA "A" st0
           (fst (processAccount envSecondRejected accountA st0))
           (snd (processAccount envSecondRejected accountA st0)));
    vm_compute; reflexivity.
Defined.

(** C4, as stated, fails on the code: with the base fee 100 the envelope
    that is submitted declares the fee 36000, not 12000; and for a base fee
    beyond the exact range the product computed on line 99 is not
    [120 * b]. *)
Lemma declared_fee_is_not_120_times_base_fee :
  horizon_fetchBaseFee envAllOk 0%nat = (Return 100, 0%nat)
  /\ (exists tx,
         In (NetSubmit tx)
            (trace (snd (processBalance envAllOk "A" accountA "GRECEIVER" keyA keyS bal1
                           loopEntryA)))
         /\ fb_fee tx = "36000"%string
         /\ decimal_value (fb_fee tx) <> Some (120 * 100))
  /\ js_mul (parseInt (2 ^ 53 - 1)) 120 <> 120 * (2 ^ 53 - 1).
Proof.
  split; [reflexivity | split].
  - eexists. split; [| split].
    + vm_compute. do 10 right. left. reflexivity.
    + reflexivity.
    + vm_compute. discriminate.
  - vm_compute. discriminate.
Qed.

Lemma fee_bump_fee_from_base_fee_witness :
  Z.abs (100 * 120) <= 2 ^ 53
  /\ decimal_value (feeBumpFee 100) = Some 12000
  /\ exists tx r st' evs,
       processBalance envAllOk "A" accountA "GRECEIVER" keyA keyS bal1 loopEntryA = (r, st')
       /\ trace st'
          = trace loopEntryA ++
              [ConsoleLog [AStr (msg_found "A" "10.5")];
               NetLoadAccount "G-ok main a";
               CryptoSign "G-ok main a";
               NetFetchBaseFee;
               CryptoSign "G-ok sponsor";
               ConsoleLog [AStr (msg_sending "A")];
               NetSubmit tx] ++ evs
       /\ fb_fee tx = "36000"%string
       /\ decimal_value (fb_fee tx) = Some 36000.
Proof.
  assert (Hb : Z.abs (100 * 120) <= 2 ^ 53) by (vm_compute; discriminate).
  split; [exact Hb |].
  destruct (@fee_bump_fee_from_base_fee nat envAllOk "A" accountA "GRECEIVER" keyA keyS bal1
              loopEntryA accA 0%nat 100 0%nat Hb eq_refl eq_refl eq_refl eq_refl eq_refl)
    as (_ & D & S & _).
  split; [exact D | exact S].
Defined.

Lemma inner_transaction_shape_witness :
  exists tx r st' evs,
    processBalance envAllOk "A" accountA "GRECEIVER" keyA keyS bal1 loopEntryA = (r, st')
    /\ trace st'
       = trace loopEntryA ++
           [ConsoleLog [AStr (msg_found "A" "10.5")];
            NetLoadAccount "G-ok main a";
            CryptoSign "G-ok main a";
            NetFetchBaseFee;
            CryptoSign "G-ok sponsor";
            ConsoleLog [AStr (msg_sending "A")];
            NetSubmit tx] ++ evs
    /\ fb_inner tx
       = mkTransaction accA "0" "Pi Network"
           [ClaimClaimableBalance "BAL1"; Payment "GRECEIVER" Asset_native "10.5"]
           60 ["G-ok main a"].
Proof.
  apply (proj1 (proj1 (proj2 (@inner_transaction_shape nat envAllOk "A" accountA "GRECEIVER"
                                keyA keyS bal1))
                  loopEntryA accA 0%nat 100 0%nat eq_refl eq_refl eq_refl eq_refl)).
  reflexivity.
Defined.

End FurtherRuns.
